(** * Dicere: the scoring engine of [backend/main.py]

    The endpoint [analyze_audio] uploads a recording, waits for the
    transcription service and then scores the completed transcript
    (steps 4 to 7 of the function and the report it returns).  This file
    embeds that scoring part as a function of the transcription result
    and proves the properties the specification states about it.

    Conventions of the embedding:
    - Python [int] is [Z]; a value whose Python type depends on the path
      taken is a [num], tagged [Int] or [Float] as Python would have it;
    - Python [float] has two models.  The engine of the first part
      idealises it as an exact rational [Q]; it carries the properties that
      do not depend on rounding (counts, records, bounds, messages).  The
      engine of module [B64] takes it as IEEE 754 binary64, with the
      operations of [SpecFloat] rounded to the nearest double and the
      [OverflowError] of a conversion out of range; it carries the
      properties of the quotients, the product and the sum;
    - [str] is [string]; [str.lower] is a parameter of the development
      (Python lowercases by the Unicode tables), instantiated with the
      ASCII mapping in the concrete examples;
    - operations that can raise ([list] subscripting, true division) return
      in the error monad [res];
    - the functions that talk to the transcription service run against a
      script of the replies the service will give, and log every request,
      [print] and [time.sleep]. *)

From Stdlib Require Import ZArith QArith Qround Lqa Lia List String Ascii Bool.
From Stdlib Require Import DecimalString.
From Stdlib Require Import Permutation Sorted.
From Stdlib Require Import Floats.SpecFloat.
Import ListNotations.

Local Open Scope string_scope.
Local Open Scope Z_scope.

(** ** Python primitives *)

Module Py.

Inductive exn := IndexError | ZeroDivisionError.

Inductive res (A : Type) : Type :=
| Ok (a : A)
| Raise (e : exn).
Arguments Ok {A} a.
Arguments Raise {A} e.

Definition bind {A B} (m : res A) (k : A -> res B) : res B :=
  match m with
  | Ok a => k a
  | Raise e => Raise e
  end.

(** [int] and [float] values. *)
Inductive num := Int (z : Z) | Float (q : Q).

Definition val (x : num) : Q :=
  match x with
  | Int z => inject_Z z
  | Float q => q
  end.

Definition Qltb (a b : Q) : bool := negb (Qle_bool b a).

(** [a < b] and [a > b]; Python compares an [int] with a [float] by value. *)
Definition lt (a b : num) : bool := Qltb (val a) (val b).
Definition gt (a b : num) : bool := Qltb (val b) (val a).

Definition add (a b : num) : num :=
  match a, b with
  | Int x, Int y => Int (x + y)
  | _, _ => Float (val a + val b)
  end.

Definition sub (a b : num) : num :=
  match a, b with
  | Int x, Int y => Int (x - y)
  | _, _ => Float (val a - val b)
  end.

Definition mul (a b : num) : num :=
  match a, b with
  | Int x, Int y => Int (x * y)
  | _, _ => Float (val a * val b)
  end.

(** [a / b]: always a [float]; raises on a zero divisor. *)
Definition truediv (a b : num) : res num :=
  if Qeq_bool (val b) 0 then Raise ZeroDivisionError
  else Ok (Float (val a / val b)).

(** [max(a, b)] keeps its first argument unless the second is greater. *)
Definition max (a b : num) : num := if gt b a then b else a.

(** [int(x)]: truncation toward zero. *)
Definition Qtrunc (q : Q) : Z := Z.quot (Qnum q) (Zpos (Qden q)).

Definition int (x : num) : Z :=
  match x with
  | Int z => z
  | Float q => Qtrunc q
  end.

(** Nearest integer, ties to the even one. *)
Definition Qround_half_even (q : Q) : Z :=
  let f := Qfloor q in
  match ((q - inject_Z f) ?= (1 # 2))%Q with
  | Lt => f
  | Gt => f + 1
  | Eq => if Z.even f then f else f + 1
  end.

(** [round(x, 1)]: an [int] is returned as it is, a [float] is rounded
    to one decimal. *)
Definition round1 (x : num) : num :=
  match x with
  | Int z => Int z
  | Float q => Float (inject_Z (Qround_half_even (q * 10)) / 10)
  end.

Definition len {A} (l : list A) : Z := Z.of_nat (List.length l).

(** [l[i]], a negative [i] counting from the end. *)
Definition getitem {A} (l : list A) (i : Z) : res A :=
  let j := if i <? 0 then i + len l else i in
  if (0 <=? j) && (j <? len l) then
    match nth_error l (Z.to_nat j) with
    | Some a => Ok a
    | None => Raise IndexError
    end
  else Raise IndexError.

(** [range(n)]: empty when [n <= 0]. *)
Definition range (n : Z) : list Z := map Z.of_nat (seq 0 (Z.to_nat n)).

(** [for x in xs: s = body(s, x)] with a body that may raise. *)
Fixpoint for_each {A S} (xs : list A) (body : S -> A -> res S) (s : S) : res S :=
  match xs with
  | [] => Ok s
  | x :: xs' => bind (body s x) (for_each xs' body)
  end.

(** [s.replace(c, '')] for a one-character [c]. *)
Fixpoint remove_char (c : ascii) (s : string) : string :=
  match s with
  | EmptyString => EmptyString
  | String a s' =>
      if Ascii.eqb a c then remove_char c s' else String a (remove_char c s')
  end.

(** [x in l] for a list of strings. *)
Definition str_in (x : string) (l : list string) : bool :=
  existsb (String.eqb x) l.

(** [str(n)] for an [int]. *)
Definition str (n : Z) : string := NilZero.string_of_int (Z.to_int n).

(** [str.lower] restricted to ASCII letters. *)
Definition ascii_lower_char (a : ascii) : ascii :=
  let n := nat_of_ascii a in
  if ((65 <=? n) && (n <=? 90))%nat then ascii_of_nat (n + 32) else a.

Fixpoint ascii_lower (s : string) : string :=
  match s with
  | EmptyString => EmptyString
  | String a s' => String (ascii_lower_char a) (ascii_lower s')
  end.

End Py.

Declare Scope py_scope.
Notation "x <- m ;; k" := (Py.bind m (fun x => k))
  (at level 61, m at next level, right associativity) : py_scope.
Notation "' pat <- m ;; k" := (Py.bind m (fun x => match x with pat => k end))
  (at level 61, pat pattern, m at next level, right associativity) : py_scope.
Local Open Scope py_scope.

(** ** Data model *)

(** An entry of [result['words']]: [{'text': ..., 'start': ..., 'end': ...}],
    times in milliseconds. *)
Module Word.
Record t := { text : string; start : Z; end_ : Z }.
End Word.

(** An entry of [result['sentiment_analysis_results']]. *)
Module Sentence.
Record t := { sentiment : string }.
End Sentence.

(** An entry of [detected_pauses]. *)
Module Pause.
Record t := { after_word_index : Z; duration : Py.num }.
End Pause.

(** The completed transcript [result]; a key may be absent, and is then
    read with the default of the [result.get] that reads it. *)
Module Result.
Record t := {
  words : option (list Word.t);
  text : option string;
  audio_duration : option Py.num;
  sentiment_analysis_results : option (list Sentence.t)
}.

Definition get {A} (field : option A) (default : A) : A :=
  match field with
  | Some a => a
  | None => default
  end.
End Result.

(** The dictionary returned by [analyze_audio]. *)
Module Scores.
Record t := { pacing : Py.num; fillers : Z; pauses : Z; sentiment : Z }.
End Scores.

Module Feedback.
Record t := { pacing : string; fillers : string; pauses : string; sentiment : string }.
End Feedback.

Module Stats.
Record t := { negative_sentences : Z; total_sentences : Z }.
End Stats.

Module Report.
Record t := {
  score : Z;
  wpm : Py.num;
  fillers_detected : Z;
  long_pauses : Z;
  category_scores : Scores.t;
  category_feedback : Feedback.t;
  sentiment_stats : Stats.t;
  feedback : string;
  transcript_text : string;
  words : list Word.t;
  detailed_pauses : list Pause.t
}.
End Report.

(** ** The scoring engine *)

Section Engine.

(** [str.lower]. *)
Variable lower : string -> string.

(** *** 5. Fillers *)

Definition fillers : list string :=
  ["um"; "umm"; "uh"; "huh"; "uhh"; "like"; "hmm"; "mhm"; "you know";
   "actually"; "basically"; "right"; "well"].

(** [word['text'].lower().replace('.', '').replace(',', '')] *)
Definition clean_word (word : Word.t) : string :=
  Py.remove_char "," (Py.remove_char "." (lower (Word.text word))).

(** The loop of step 5, on the state [(filler_count, detected_fillers)]. *)
Definition detect_fillers (words : list Word.t) : Z * list Word.t :=
  fold_left
    (fun '(filler_count, detected_fillers) word =>
       if Py.str_in (clean_word word) fillers
       then (filler_count + 1, (detected_fillers ++ [word])%list)
       else (filler_count, detected_fillers))
    words (0, []).

(** *** 6. Pauses *)

Definition pause_threshold : Py.num := Py.Float (3 # 2).

Definition pause_body (words : list Word.t)
    (st : Z * list Pause.t) (i : Z) : Py.res (Z * list Pause.t) :=
  let '(long_pauses, detected_pauses) := st in
  wi <- Py.getitem words i ;;
  let end_current := Word.end_ wi in
  wn <- Py.getitem words (i + 1) ;;
  let start_next := Word.start wn in
  let gap_ms := start_next - end_current in
  gap_sec <- Py.truediv (Py.Int gap_ms) (Py.Float 1000) ;;
  if Py.gt gap_sec pause_threshold
  then Py.Ok (long_pauses + 1,
              (detected_pauses ++
                 [{| Pause.after_word_index := i; Pause.duration := gap_sec |}])%list)
  else Py.Ok (long_pauses, detected_pauses).

(** The loop of step 6, on the state [(long_pauses, detected_pauses)]. *)
Definition detect_pauses (words : list Word.t) : Py.res (Z * list Pause.t) :=
  Py.for_each (Py.range (Py.len words - 1)) (pause_body words) (0, []).

(** *** 7. Pacing *)

(** [audio_duration_sec] after the [if len(words) > 0] block. *)
Definition audio_duration_sec (words : list Word.t) (audio_duration : Py.num)
    : Py.res Py.num :=
  if Py.len words >? 0 then
    w0 <- Py.getitem words 0 ;;
    let start_ms := Word.start w0 in
    wl <- Py.getitem words (-1) ;;
    let end_ms := Word.end_ wl in
    let active_duration_ms := end_ms - start_ms in
    let adjusted_duration_ms := active_duration_ms + 1000 in
    if adjusted_duration_ms >? 0
    then Py.truediv (Py.Int adjusted_duration_ms) (Py.Float 1000)
    else Py.Ok audio_duration
  else Py.Ok audio_duration.

Definition audio_duration_min (sec : Py.num) : Py.res Py.num :=
  if Py.gt sec (Py.Int 0) then Py.truediv sec (Py.Float 60) else Py.Ok (Py.Int 1).

Definition wpm (words : list Word.t) (audio_duration : Py.num) : Py.res Py.num :=
  sec <- audio_duration_sec words audio_duration ;;
  minutes <- audio_duration_min sec ;;
  let total_words_count := Py.len words in
  if Py.gt minutes (Py.Int 0)
  then Py.truediv (Py.Int total_words_count) minutes
  else Py.Ok (Py.Int 0).

Definition min_wpm : Z := 130.
Definition max_wpm : Z := 170.

(** [(wpm_score, wpm_feedback)] *)
Definition pacing (wpm : Py.num) : Py.num * string :=
  if Py.lt wpm (Py.Int min_wpm) then
    let diff := Py.sub (Py.Int min_wpm) wpm in
    (Py.max (Py.Int 0) (Py.sub (Py.Int 100) diff),
     "Your pace is too slow. Aim for " ++ Py.str min_wpm ++ "-" ++ Py.str max_wpm
       ++ " WPM for the clearest speech.")
  else if Py.gt wpm (Py.Int max_wpm) then
    let diff := Py.sub wpm (Py.Int max_wpm) in
    (Py.max (Py.Int 0) (Py.sub (Py.Int 100) diff),
     "Your pace is too fast. Slow down to " ++ Py.str min_wpm ++ "-" ++ Py.str max_wpm
       ++ " WPM for the clearest speech.")
  else (Py.Int 100, "Perfect pacing.").

Definition wpm_score (wpm : Py.num) : Py.num := fst (pacing wpm).
Definition wpm_feedback (wpm : Py.num) : string := snd (pacing wpm).

(** *** 7. Fillers *)

Definition filler_penalty (detected_fillers : list Word.t) : Z :=
  fold_left
    (fun filler_penalty word =>
       let text := clean_word word in
       if Py.str_in text ["um"; "uh"] then filler_penalty + 5
       else if String.eqb text "like" then filler_penalty + 3
       else filler_penalty + 2)
    detected_fillers 0.

Definition filler_score (detected_fillers : list Word.t) : Z :=
  Z.max 0 (100 - filler_penalty detected_fillers).

Definition filler_feedback (detected_fillers : list Word.t) : string :=
  let filler_score := filler_score detected_fillers in
  if filler_score =? 100 then "Excellent! No filler words detected."
  else if filler_score >? 80
  then "A few filler words were detected, try to reduce usage of them."
  else "High filler usage detected (" ++ Py.str (Py.len detected_fillers) ++ " found).".

(** *** 7. Pauses *)

Definition pause_threshold_for_penalty : Py.num := pause_threshold.

Definition long_pause_penalty_count (detected_pauses : list Pause.t) : Z :=
  fold_left
    (fun count pause =>
       if Py.gt (Pause.duration pause) pause_threshold_for_penalty
       then count + 1 else count)
    detected_pauses 0.

Definition pause_score (detected_pauses : list Pause.t) : Z :=
  Z.max 0 (100 - long_pause_penalty_count detected_pauses * 15).

Definition pause_feedback (detected_pauses : list Pause.t) : string :=
  let pause_score := pause_score detected_pauses in
  if pause_score =? 100 then
    if Py.len detected_pauses =? 0
    then "Flow is continuous, great job!"
    else "A few pauses are natural, but be cognizant of them."
  else if pause_score >? 70
  then "Awkward pauses detected, aim to talk with confidence."
  else "Minimize long silences (>1.5s) to maintain engagement.".

(** *** 7. Sentiment *)

Definition negative_count (sentiment_results : list Sentence.t) : Z :=
  fold_left
    (fun negative_count sent =>
       if String.eqb (Sentence.sentiment sent) "NEGATIVE"
       then negative_count + 1 else negative_count)
    sentiment_results 0.

(** [(negative_count, sentiment_score)] after the [if total_sentences > 0]
    block. *)
Definition sentiment (sentiment_results : list Sentence.t) : Py.res (Z * Z) :=
  let total_sentences := Py.len sentiment_results in
  if total_sentences >? 0 then
    let negative_count := negative_count sentiment_results in
    neg_ratio <- Py.truediv (Py.Int negative_count) (Py.Int total_sentences) ;;
    if Py.gt neg_ratio (Py.Float (1 # 10))
    then Py.Ok (negative_count,
                Z.max 0 (100 - Py.int (Py.mul neg_ratio (Py.Int 100))))
    else Py.Ok (negative_count, 100)
  else Py.Ok (0, 100).

Definition sentiment_feedback (sentiment_score : Z) : string :=
  if sentiment_score >=? 90 then "Tone is positive and professional."
  else if sentiment_score >? 70
  then "Tone is mostly okay, but some negativity detected."
  else "Watch your tone - significant negative sentiment detected.".

(** *** Overall *)

Definition overall_score (wpm_score : Py.num)
    (filler_score pause_score sentiment_score : Z) : Py.res Z :=
  mean <- Py.truediv
            (Py.add (Py.add (Py.add wpm_score (Py.Int filler_score))
                       (Py.Int pause_score))
               (Py.Int sentiment_score))
            (Py.Int 4) ;;
  Py.Ok (Py.int mean).

(** Steps 4 to 7 of [analyze_audio] and the value it returns. *)
Definition analyze_audio (result : Result.t) : Py.res Report.t :=
  let words := Result.get (Result.words result) [] in
  let transcript_text := Result.get (Result.text result) "" in
  let '(filler_count, detected_fillers) := detect_fillers words in
  '(long_pauses, detected_pauses) <- detect_pauses words ;;
  let audio_duration := Result.get (Result.audio_duration result) (Py.Int 0) in
  wpm <- wpm words audio_duration ;;
  let '(wpm_score, wpm_feedback) := pacing wpm in
  let filler_score := filler_score detected_fillers in
  let filler_feedback := filler_feedback detected_fillers in
  let pause_score := pause_score detected_pauses in
  let pause_feedback := pause_feedback detected_pauses in
  let sentiment_results := Result.get (Result.sentiment_analysis_results result) [] in
  let total_sentences := Py.len sentiment_results in
  '(negative_count, sentiment_score) <- sentiment sentiment_results ;;
  let sentiment_feedback := sentiment_feedback sentiment_score in
  overall_score <- overall_score wpm_score filler_score pause_score sentiment_score ;;
  let final_feedback :=
    wpm_feedback ++ " " ++ filler_feedback ++ " " ++ pause_feedback ++ " "
      ++ sentiment_feedback in
  Py.Ok {|
    Report.score := overall_score;
    Report.wpm := Py.round1 wpm;
    Report.fillers_detected := filler_count;
    Report.long_pauses := long_pauses;
    Report.category_scores := {|
      Scores.pacing := wpm_score;
      Scores.fillers := filler_score;
      Scores.pauses := pause_score;
      Scores.sentiment := sentiment_score |};
    Report.category_feedback := {|
      Feedback.pacing := wpm_feedback;
      Feedback.fillers := filler_feedback;
      Feedback.pauses := pause_feedback;
      Feedback.sentiment := sentiment_feedback |};
    Report.sentiment_stats := {|
      Stats.negative_sentences := negative_count;
      Stats.total_sentences := total_sentences |};
    Report.feedback := final_feedback;
    Report.transcript_text := transcript_text;
    Report.words := words;
    Report.detailed_pauses := detected_pauses |}.

End Engine.


(** ** The specification's formulas

    Definitions written from the specification's sentences, to be compared
    with the engine above. *)









(** §4.4: the duration the rate is computed over, in seconds. *)
Definition spec_effective_duration (first last : Word.t) (audio_duration : Q) : Q :=
  let buffered_ms := Word.end_ last - Word.start first + 1000 in
  if buffered_ms >? 0 then inject_Z buffered_ms / 1000 else audio_duration.

(** §4.4: words per minute, the denominator being one minute when the
    duration is not positive. *)
Definition spec_wpm (word_count : Z) (effective_duration : Q) : Q :=
  if Py.Qltb 0 effective_duration
  then inject_Z word_count / (effective_duration / 60)
  else inject_Z word_count / 1.

(** §4.5: the tone score. *)
Definition spec_negatives (sentences : list Sentence.t) : list Sentence.t :=
  filter (fun s => String.eqb (Sentence.sentiment s) "NEGATIVE") sentences.

Definition spec_neg_ratio (sentences : list Sentence.t) : Q :=
  inject_Z (Py.len (spec_negatives sentences)) / inject_Z (Py.len sentences).

Definition spec_sentiment_score (sentences : list Sentence.t) : Z :=
  match sentences with
  | [] => 100
  | _ :: _ =>
      let neg_ratio := spec_neg_ratio sentences in
      if Py.Qltb (1 # 10) neg_ratio
      then Z.max 0 (100 - Qfloor (neg_ratio * 100))
      else 100
  end.


(** [float.is_integer]; an [int] is one already. *)
Definition is_integer (x : Py.num) : bool :=
  match x with
  | Py.Int _ => true
  | Py.Float q => Qeq_bool q (inject_Z (Qfloor q))
  end.

(** The transcript with another [audio_duration]. *)
Definition with_audio_duration (result : Result.t) (d : option Py.num) : Result.t :=
  {| Result.words := Result.words result;
     Result.text := Result.text result;
     Result.audio_duration := d;
     Result.sentiment_analysis_results := Result.sentiment_analysis_results result |}.

(** Inputs of the specification's scenarios. *)
Definition word (text : string) (start end_ : Z) : Word.t :=
  {| Word.text := text; Word.start := start; Word.end_ := end_ |}.

Definition transcript (words : list Word.t) (audio_duration : Py.num)
    (sentences : list Sentence.t) : Result.t :=
  {| Result.words := Some words;
     Result.text := Some "";
     Result.audio_duration := Some audio_duration;
     Result.sentiment_analysis_results := Some sentences |}.

Definition negative : Sentence.t := {| Sentence.sentiment := "NEGATIVE" |}.
Definition positive : Sentence.t := {| Sentence.sentiment := "POSITIVE" |}.

(** ** The endpoint and the transcription service

    The functions around the scoring: [upload_to_assemblyai],
    [transcribe_audio], [get_transcription_result] and the head of
    [analyze_audio].  They talk to the service through [requests]; the
    service is a script, the replies it will give in order, and every
    request, [print] and [time.sleep] is written to a log.  A request that
    finds the script empty leaves the run [Waiting] for its reply.  Failures
    of the transport itself (no connection) are not part of the model. *)

Module Http.

(** The keys the code reads in [response.json()]; [transcript] holds the
    keys the scoring reads. *)
Record body := {
  upload_url : option string;
  id : option string;
  status : option string;
  transcript : Result.t
}.

(** A reply; [json] is [None] when the body is not JSON. *)
Record response := {
  status_code : Z;
  text : string;
  json : option body
}.

(** The values of [json_data]. *)
Inductive jvalue :=
| JString (s : string)
| JBool (b : bool)
| JStrings (l : list string).

Inductive payload :=
| Data (audio_data : string)
| Json (json_data : list (string * jvalue)).

Definition headers := list (string * option string).

Inductive event :=
| Print (line : string)
| Post (url : string) (h : headers) (content : payload)
| Get (url : string) (h : headers)
| Sleep (seconds : Q).

Inductive failure :=
| HTTPException (status_code : Z) (detail : string)
| KeyError (key : string)
| JSONDecodeError
| Engine (e : Py.exn).

Inductive outcome (A : Type) : Type :=
| Return (a : A)
| Raise (e : failure)
| Waiting.
Arguments Return {A} a.
Arguments Raise {A} e.
Arguments Waiting {A}.

Record world := { replies : list response; log : list event }.

Definition io (A : Type) : Type := world -> outcome A * world.

Definition ret {A} (a : A) : io A := fun w => (Return a, w).

Definition raise {A} (e : failure) : io A := fun w => (Raise e, w).

Definition bind {A B} (m : io A) (k : A -> io B) : io B :=
  fun w =>
    match m w with
    | (Return a, w') => k a w'
    | (Raise e, w') => (Raise e, w')
    | (Waiting, w') => (Waiting, w')
    end.

Definition emit (e : event) : io unit :=
  fun w => (Return tt, {| replies := replies w; log := (log w ++ [e])%list |}).

(** A request is logged, then answered by the next reply of the script. *)
Definition request (e : event) : io response :=
  fun w =>
    match replies w with
    | [] => (Waiting, {| replies := []; log := (log w ++ [e])%list |})
    | r :: rest => (Return r, {| replies := rest; log := (log w ++ [e])%list |})
    end.

(** [response.json()] *)
Definition json_of (r : response) : io body :=
  match json r with
  | Some b => ret b
  | None => raise JSONDecodeError
  end.

(** [d[key]] *)
Definition getkey {A} (key : string) (field : option A) : io A :=
  match field with
  | Some a => ret a
  | None => raise (KeyError key)
  end.

End Http.

(** The [file] of the request. *)
Module UploadFile.
Record t := {
  filename : option string;
  content_type : option string;
  content : string
}.
End UploadFile.

Declare Scope io_scope.
Notation "x <- m ;; k" := (Http.bind m (fun x => k))
  (at level 61, m at next level, right associativity) : io_scope.
Notation "m ;;; k" := (Http.bind m (fun _ => k))
  (at level 61, right associativity) : io_scope.

Section Service.

Local Open Scope io_scope.

(** [os.getenv("ASSEMBLYAI_API_KEY")] *)
Variable API_KEY : option string.

Variable lower : string -> string.

Definition UPLOAD_ENDPOINT : string := "https://api.assemblyai.com/v2/upload".
Definition TRANSCRIPT_ENDPOINT : string := "https://api.assemblyai.com/v2/transcript".

Definition upload_to_assemblyai (audio_data : string) : Http.io string :=
  let headers := [("authorization", API_KEY)] in
  response <- Http.request (Http.Post UPLOAD_ENDPOINT headers (Http.Data audio_data)) ;;
  if negb (Http.status_code response =? 200) then
    Http.emit (Http.Print ("Upload Error: " ++ Py.str (Http.status_code response)
                             ++ ", " ++ Http.text response)) ;;;
    Http.raise (Http.HTTPException (Http.status_code response)
                  "Failed to upload audio to AssemblyAI")
  else
    b <- Http.json_of response ;;
    Http.getkey "upload_url" (Http.upload_url b).

Definition transcribe_audio (upload_url : string) : Http.io string :=
  let headers :=
    [("authorization", API_KEY); ("content-type", Some "application/json")] in
  let json_data :=
    [("audio_url", Http.JString upload_url);
     ("disfluencies", Http.JBool true);
     ("speaker_labels", Http.JBool false);
     ("speech_models", Http.JStrings ["universal-3-pro"; "universal-2"]);
     ("sentiment_analysis", Http.JBool true)] in
  response <- Http.request (Http.Post TRANSCRIPT_ENDPOINT headers (Http.Json json_data)) ;;
  if negb (Http.status_code response =? 200) then
    Http.emit (Http.Print ("Transcript Error: " ++ Py.str (Http.status_code response)
                             ++ ", " ++ Http.text response)) ;;;
    Http.raise (Http.HTTPException (Http.status_code response)
                  "Failed to start transcription")
  else
    b <- Http.json_of response ;;
    Http.getkey "id" (Http.id b).

(** The [while True] loop of [get_transcription_result]: one turn for each
    reply of the script. *)
Fixpoint poll (headers : Http.headers) (polling_endpoint : string)
    (replies : list Http.response) (log : list Http.event)
    : Http.outcome Http.body * Http.world :=
  let log := (log ++ [Http.Get polling_endpoint headers])%list in
  match replies with
  | [] => (Http.Waiting, {| Http.replies := []; Http.log := log |})
  | response :: rest =>
      match Http.json response with
      | None => (Http.Raise Http.JSONDecodeError,
                 {| Http.replies := rest; Http.log := log |})
      | Some b =>
          match Http.status b with
          | None => (Http.Raise (Http.KeyError "status"),
                     {| Http.replies := rest; Http.log := log |})
          | Some status =>
              if String.eqb status "completed" then
                (Http.Return b, {| Http.replies := rest; Http.log := log |})
              else if String.eqb status "error" then
                (Http.Raise (Http.HTTPException 500 "Transcription failed"),
                 {| Http.replies := rest; Http.log := log |})
              else
                poll headers polling_endpoint rest
                  (log ++ [Http.Sleep (1 # 4)])%list
          end
      end
  end.

Definition get_transcription_result (transcript_id : string) : Http.io Http.body :=
  let headers := [("authorization", API_KEY)] in
  let polling_endpoint := TRANSCRIPT_ENDPOINT ++ "/" ++ transcript_id in
  fun w => poll headers polling_endpoint (Http.replies w) (Http.log w).

(** [not API_KEY]: no variable, or an empty one. *)
Definition no_api_key : bool :=
  match API_KEY with
  | None => true
  | Some key => String.eqb key ""
  end.

(** An optional string inside an f-string. *)
Definition format_optional (s : option string) : string :=
  match s with
  | Some s => s
  | None => "None"
  end.

(** The endpoint [POST /analyze]: the whole of [analyze_audio]. *)
Definition analyze_endpoint (file : UploadFile.t) : Http.io Report.t :=
  if no_api_key then
    Http.emit (Http.Print "Error: API Key missing") ;;;
    Http.raise (Http.HTTPException 500 "AssemblyAI API Key not configured")
  else
    Http.emit (Http.Print ("Received file: " ++ format_optional (UploadFile.filename file)
                             ++ ", Content-Type: "
                             ++ format_optional (UploadFile.content_type file))) ;;;
    let content := UploadFile.content file in
    upload_url <- upload_to_assemblyai content ;;
    transcript_id <- transcribe_audio upload_url ;;
    result <- get_transcription_result transcript_id ;;
    match analyze_audio lower (Http.transcript result) with
    | Py.Ok report => Http.ret report
    | Py.Raise e => Http.raise (Http.Engine e)
    end.

End Service.

(** A reply of the polling that ends nothing: JSON with a status other than
    [completed] and [error]. *)
Definition in_progress (r : Http.response) : bool :=
  match Http.json r with
  | Some b =>
      match Http.status b with
      | Some status => negb (String.eqb status "completed" || String.eqb status "error")
      | None => false
      end
  | None => false
  end.

(** What [k] turns of polling write to the log before the turn that ends. *)
Fixpoint polling_log (headers : Http.headers) (polling_endpoint : string) (k : nat)
    : list Http.event :=
  match k with
  | O => []
  | S k' =>
      Http.Get polling_endpoint headers :: Http.Sleep (1 # 4)
        :: polling_log headers polling_endpoint k'
  end.

(** A request of the log carries the key and goes to the service. *)
Definition to_service (API_KEY : option string) (e : Http.event) : Prop :=
  match e with
  | Http.Post url h _ =>
      In ("authorization", API_KEY) h
      /\ (url = UPLOAD_ENDPOINT \/ url = TRANSCRIPT_ENDPOINT)
  | Http.Get url h =>
      In ("authorization", API_KEY) h
      /\ exists transcript_id, url = TRANSCRIPT_ENDPOINT ++ "/" ++ transcript_id
  | _ => True
  end.

Definition is_request (e : Http.event) : bool :=
  match e with
  | Http.Post _ _ _ | Http.Get _ _ => true
  | _ => false
  end.



(** The requests among the events of a log. *)
Definition requests_sent (events : list Http.event) : nat :=
  List.length (filter is_request events).

(** What a run from the world [w] may leave behind: it adds events to the
    log, every request among them carrying the key to the service, and
    takes replies from the front of the script, one for each request sent
    (the last request has none when the run is left waiting). *)
Definition extends (API_KEY : option string) {A : Type}
    (w : Http.world) (r : Http.outcome A * Http.world) : Prop :=
  exists new used,
    Http.log (snd r) = (Http.log w ++ new)%list
    /\ Http.replies w = (used ++ Http.replies (snd r))%list
    /\ Forall (to_service API_KEY) new
    /\ requests_sent new
       = (List.length used + match fst r with Http.Waiting => 1 | _ => 0 end)%nat.

(** The [HTTPException]s the endpoint raises itself (lines 29, 47, 71 and
    78), given the replies of the service. *)
Definition expected_http_exception (replies : list Http.response)
    (code : Z) (detail : string) : Prop :=
  (code = 500
   /\ (detail = "AssemblyAI API Key not configured"
       \/ detail = "Transcription failed"))
  \/ (exists r,
        In r replies /\ Http.status_code r = code /\ code <> 200
        /\ (detail = "Failed to upload audio to AssemblyAI"
            \/ detail = "Failed to start transcription")).

(** Replies of the service, for the scenarios. *)
Definition reply (status_code : Z) (upload_url id status : option string)
    (result : Result.t) : Http.response :=
  {| Http.status_code := status_code;
     Http.text := "";
     Http.json := Some {| Http.upload_url := upload_url; Http.id := id;
                          Http.status := status; Http.transcript := result |} |}.

Definition no_result : Result.t :=
  {| Result.words := None; Result.text := None; Result.audio_duration := None;
     Result.sentiment_analysis_results := None |}.

Definition recording : UploadFile.t :=
  {| UploadFile.filename := Some "talk.wav";
     UploadFile.content_type := Some "audio/wav";
     UploadFile.content := "RIFF" |}.

Definition fresh (replies : list Http.response) : Http.world :=
  {| Http.replies := replies; Http.log := [] |}.

(** How far a rate lies outside the band 130..170. *)
Definition band_distance (rate : Q) : Q :=
  if Py.Qltb rate 130 then 130 - rate
  else if Py.Qltb 170 rate then rate - 170
  else 0.



(** ** Python numbers with binary64 floats *)

Module Py64.

Inductive exn := IndexError | ZeroDivisionError | OverflowError | ValueError.

Inductive res (A : Type) : Type :=
| Ok (a : A)
| Raise (e : exn).
Arguments Ok {A} a.
Arguments Raise {A} e.

Definition bind {A B} (m : res A) (k : A -> res B) : res B :=
  match m with
  | Ok a => k a
  | Raise e => Raise e
  end.

(** A Python [float] is an IEEE 754 binary64 number. *)
Definition prec : Z := 53.
Definition emax : Z := 1024.
Definition float : Type := spec_float.

Definition is_nan (f : float) : bool :=
  match f with S754_nan => true | _ => false end.

Definition is_infinite (f : float) : bool :=
  match f with S754_infinity _ => true | _ => false end.

Definition is_zero (f : float) : bool :=
  match f with S754_zero _ => true | _ => false end.

(** An integer as an unrounded float, mantissa [|z|] and exponent 0. *)
Definition exact (z : Z) : float :=
  match z with
  | Z0 => S754_zero false
  | Zpos m => S754_finite false m 0
  | Zneg m => S754_finite true m 0
  end.

(** The double nearest to [m * 2^e], ties to even; an infinity when it is
    out of range. *)
Definition nearest (m e : Z) : float := binary_normalize prec emax m e false.

(** The double nearest to [n / d], as a decimal literal is read. *)
Definition literal (n d : Z) : float := SFdiv prec emax (exact n) (exact d).

(** [int] and [float] values. *)
Inductive num := Int (z : Z) | Float (f : float).

(** The conversion of an operand to [float]: an [int] is rounded to the
    nearest double, and refused when it is out of range. *)
Definition to_float (x : num) : res float :=
  match x with
  | Int z =>
      let f := nearest z 0 in
      if is_infinite f then Raise OverflowError else Ok f
  | Float f => Ok f
  end.

(** The value of a number on the extended line; [None] for a NaN. *)
Inductive ext := NegInf | Fin (m e : Z) | PosInf.

Definition view (x : num) : option ext :=
  match x with
  | Int z => Some (Fin z 0)
  | Float S754_nan => None
  | Float (S754_infinity s) => Some (if s then NegInf else PosInf)
  | Float (S754_zero _) => Some (Fin 0 0)
  | Float (S754_finite s m e) => Some (Fin (cond_Zopp s (Zpos m)) e)
  end.

Definition ext_compare (a b : ext) : comparison :=
  match a, b with
  | NegInf, NegInf => Eq
  | NegInf, _ => Lt
  | _, NegInf => Gt
  | PosInf, PosInf => Eq
  | PosInf, _ => Gt
  | _, PosInf => Lt
  | Fin m1 e1, Fin m2 e2 =>
      let e := Z.min e1 e2 in
      Z.compare (m1 * 2 ^ (e1 - e)) (m2 * 2 ^ (e2 - e))
  end.

(** Python compares an [int] with a [float] by their exact values; every
    comparison with a NaN is false. *)
Definition compare (a b : num) : option comparison :=
  match view a, view b with
  | Some x, Some y => Some (ext_compare x y)
  | _, _ => None
  end.

Definition lt (a b : num) : bool :=
  match compare a b with Some Lt => true | _ => false end.

Definition gt (a b : num) : bool :=
  match compare a b with Some Gt => true | _ => false end.

(** [a + b], [a - b], [a * b]: exact on two [int]s, otherwise the float
    operation on the converted operands; a float result out of range is an
    infinity, not an error. *)
Definition add (a b : num) : res num :=
  match a, b with
  | Int x, Int y => Ok (Int (x + y))
  | _, _ =>
      bind (to_float a) (fun x =>
      bind (to_float b) (fun y => Ok (Float (SFadd prec emax x y))))
  end.

Definition sub (a b : num) : res num :=
  match a, b with
  | Int x, Int y => Ok (Int (x - y))
  | _, _ =>
      bind (to_float a) (fun x =>
      bind (to_float b) (fun y => Ok (Float (SFsub prec emax x y))))
  end.

Definition mul (a b : num) : res num :=
  match a, b with
  | Int x, Int y => Ok (Int (x * y))
  | _, _ =>
      bind (to_float a) (fun x =>
      bind (to_float b) (fun y => Ok (Float (SFmul prec emax x y))))
  end.

(** [a / b]: always a [float].  The quotient of two [int]s is the double
    nearest to the exact quotient, refused when out of range; otherwise
    the operands are converted and divided as floats. *)
Definition truediv (a b : num) : res num :=
  match a, b with
  | Int x, Int y =>
      if y =? 0 then Raise ZeroDivisionError
      else
        let f := SFdiv prec emax (exact x) (exact y) in
        if is_infinite f then Raise OverflowError else Ok (Float f)
  | _, _ =>
      bind (to_float a) (fun x =>
      bind (to_float b) (fun y =>
      if is_zero y then Raise ZeroDivisionError
      else Ok (Float (SFdiv prec emax x y))))
  end.

(** [max(a, b)] keeps its first argument unless the second is greater. *)
Definition max (a b : num) : num := if gt b a then b else a.

(** [int(x)]: truncation toward zero. *)
Definition int (x : num) : res Z :=
  match x with
  | Int z => Ok z
  | Float S754_nan => Raise ValueError
  | Float (S754_infinity _) => Raise OverflowError
  | Float (S754_zero _) => Ok 0
  | Float (S754_finite s m e) => Ok (cond_Zopp s (Z.shiftl (Zpos m) e))
  end.

(** The integer nearest to [n / d] for [d > 0], ties to the even one. *)
Definition div_half_even (n d : Z) : Z :=
  let q := n / d in
  match Z.compare (2 * (n mod d)) d with
  | Lt => q
  | Gt => q + 1
  | Eq => if Z.even q then q else q + 1
  end.

(** [round(x, 1)]: an [int] is returned as it is; a finite [float] becomes
    the double nearest to its exact value rounded to one decimal, ties to
    the even digit. *)
Definition round1 (x : num) : num :=
  match x with
  | Float (S754_finite s m e) =>
      let tenths :=
        if 0 <=? e then 10 * Zpos m * 2 ^ e
        else div_half_even (10 * Zpos m) (2 ^ (- e)) in
      Float (SFdiv prec emax
               (match tenths with
                | Zpos t => S754_finite s t 0
                | _ => S754_zero s
                end)
               (exact 10))
  | _ => x
  end.

(** The exact value of a finite number. *)
Definition val (x : num) : Q :=
  match x with
  | Int z => inject_Z z
  | Float (S754_finite s m e) =>
      if 0 <=? e then inject_Z (cond_Zopp s (Zpos m) * 2 ^ e)
      else Qmake (cond_Zopp s (Zpos m)) (Z.to_pos (2 ^ (- e)))
  | Float _ => 0
  end.

Definition getitem {A} (l : list A) (i : Z) : res A :=
  let j := if i <? 0 then i + Py.len l else i in
  if (0 <=? j) && (j <? Py.len l) then
    match nth_error l (Z.to_nat j) with
    | Some a => Ok a
    | None => Raise IndexError
    end
  else Raise IndexError.

Fixpoint for_each {A S} (xs : list A) (body : S -> A -> res S) (s : S) : res S :=
  match xs with
  | [] => Ok s
  | x :: xs' => bind (body s x) (for_each xs' body)
  end.

End Py64.

Declare Scope py64_scope.
Notation "x <- m ;; k" := (Py64.bind m (fun x => k))
  (at level 61, m at next level, right associativity) : py64_scope.
Notation "' pat <- m ;; k" := (Py64.bind m (fun x => match x with pat => k end))
  (at level 61, pat pattern, m at next level, right associativity) : py64_scope.

(** ** The scoring engine over binary64

    The same steps of [analyze_audio] with every float operation rounded
    as Python rounds it, and with the failure of a conversion to [float].
    The parts that work on integers and strings only (the fillers, the
    tone message) are those of the engine above. *)

Module B64.

Local Open Scope py64_scope.

Module Pause.
Record t := { after_word_index : Z; duration : Py64.num }.
End Pause.

Module Result.
Record t := {
  words : option (list Word.t);
  text : option string;
  audio_duration : option Py64.num;
  sentiment_analysis_results : option (list Sentence.t)
}.

Definition get {A} (field : option A) (default : A) : A :=
  match field with
  | Some a => a
  | None => default
  end.
End Result.

Module Scores.
Record t := { pacing : Py64.num; fillers : Z; pauses : Z; sentiment : Z }.
End Scores.

Module Report.
Record t := {
  score : Z;
  wpm : Py64.num;
  fillers_detected : Z;
  long_pauses : Z;
  category_scores : Scores.t;
  category_feedback : Feedback.t;
  sentiment_stats : Stats.t;
  feedback : string;
  transcript_text : string;
  words : list Word.t;
  detailed_pauses : list Pause.t
}.
End Report.

Section Engine.

(** [str.lower]. *)
Variable lower : string -> string.

(** *** 6. Pauses *)

(** [1.5] *)
Definition pause_threshold : Py64.num := Py64.Float (Py64.literal 15 10).

Definition pause_body (words : list Word.t)
    (st : Z * list Pause.t) (i : Z) : Py64.res (Z * list Pause.t) :=
  let '(long_pauses, detected_pauses) := st in
  wi <- Py64.getitem words i ;;
  let end_current := Word.end_ wi in
  wn <- Py64.getitem words (i + 1) ;;
  let start_next := Word.start wn in
  let gap_ms := start_next - end_current in
  gap_sec <- Py64.truediv (Py64.Int gap_ms) (Py64.Float (Py64.nearest 1000 0)) ;;
  if Py64.gt gap_sec pause_threshold
  then Py64.Ok (long_pauses + 1,
                (detected_pauses ++
                   [{| Pause.after_word_index := i; Pause.duration := gap_sec |}])%list)
  else Py64.Ok (long_pauses, detected_pauses).

Definition detect_pauses (words : list Word.t) : Py64.res (Z * list Pause.t) :=
  Py64.for_each (Py.range (Py.len words - 1)) (pause_body words) (0, []).

(** *** 7. Pacing *)

(** [audio_duration_sec] after the [if len(words) > 0] block. *)
Definition audio_duration_sec (words : list Word.t) (audio_duration : Py64.num)
    : Py64.res Py64.num :=
  if Py.len words >? 0 then
    w0 <- Py64.getitem words 0 ;;
    let start_ms := Word.start w0 in
    wl <- Py64.getitem words (-1) ;;
    let end_ms := Word.end_ wl in
    let active_duration_ms := end_ms - start_ms in
    let adjusted_duration_ms := active_duration_ms + 1000 in
    if adjusted_duration_ms >? 0
    then Py64.truediv (Py64.Int adjusted_duration_ms) (Py64.Float (Py64.nearest 1000 0))
    else Py64.Ok audio_duration
  else Py64.Ok audio_duration.

Definition audio_duration_min (sec : Py64.num) : Py64.res Py64.num :=
  if Py64.gt sec (Py64.Int 0)
  then Py64.truediv sec (Py64.Float (Py64.nearest 60 0))
  else Py64.Ok (Py64.Int 1).

Definition wpm (words : list Word.t) (audio_duration : Py64.num)
    : Py64.res Py64.num :=
  sec <- audio_duration_sec words audio_duration ;;
  minutes <- audio_duration_min sec ;;
  let total_words_count := Py.len words in
  if Py64.gt minutes (Py64.Int 0)
  then Py64.truediv (Py64.Int total_words_count) minutes
  else Py64.Ok (Py64.Int 0).

(** [(wpm_score, wpm_feedback)] *)
Definition pacing (wpm : Py64.num) : Py64.res (Py64.num * string) :=
  if Py64.lt wpm (Py64.Int min_wpm) then
    diff <- Py64.sub (Py64.Int min_wpm) wpm ;;
    score <- Py64.sub (Py64.Int 100) diff ;;
    Py64.Ok (Py64.max (Py64.Int 0) score,
             "Your pace is too slow. Aim for " ++ Py.str min_wpm ++ "-"
               ++ Py.str max_wpm ++ " WPM for the clearest speech.")
  else if Py64.gt wpm (Py64.Int max_wpm) then
    diff <- Py64.sub wpm (Py64.Int max_wpm) ;;
    score <- Py64.sub (Py64.Int 100) diff ;;
    Py64.Ok (Py64.max (Py64.Int 0) score,
             "Your pace is too fast. Slow down to " ++ Py.str min_wpm ++ "-"
               ++ Py.str max_wpm ++ " WPM for the clearest speech.")
  else Py64.Ok (Py64.Int 100, "Perfect pacing.").

(** *** 7. Pauses *)

Definition pause_threshold_for_penalty : Py64.num := pause_threshold.

Definition long_pause_penalty_count (detected_pauses : list Pause.t) : Z :=
  fold_left
    (fun count pause =>
       if Py64.gt (Pause.duration pause) pause_threshold_for_penalty
       then count + 1 else count)
    detected_pauses 0.

Definition pause_score (detected_pauses : list Pause.t) : Z :=
  Z.max 0 (100 - long_pause_penalty_count detected_pauses * 15).

Definition pause_feedback (detected_pauses : list Pause.t) : string :=
  let pause_score := pause_score detected_pauses in
  if pause_score =? 100 then
    if Py.len detected_pauses =? 0
    then "Flow is continuous, great job!"
    else "A few pauses are natural, but be cognizant of them."
  else if pause_score >? 70
  then "Awkward pauses detected, aim to talk with confidence."
  else "Minimize long silences (>1.5s) to maintain engagement.".

(** *** 7. Sentiment *)

(** [(negative_count, sentiment_score)] after the [if total_sentences > 0]
    block. *)
Definition sentiment (sentiment_results : list Sentence.t) : Py64.res (Z * Z) :=
  let total_sentences := Py.len sentiment_results in
  if total_sentences >? 0 then
    let negative_count := negative_count sentiment_results in
    neg_ratio <- Py64.truediv (Py64.Int negative_count) (Py64.Int total_sentences) ;;
    if Py64.gt neg_ratio (Py64.Float (Py64.literal 1 10)) then
      percent <- Py64.mul neg_ratio (Py64.Int 100) ;;
      whole <- Py64.int percent ;;
      Py64.Ok (negative_count, Z.max 0 (100 - whole))
    else Py64.Ok (negative_count, 100)
  else Py64.Ok (0, 100).

(** *** Overall *)

Definition overall_score (wpm_score : Py64.num)
    (filler_score pause_score sentiment_score : Z) : Py64.res Z :=
  s1 <- Py64.add wpm_score (Py64.Int filler_score) ;;
  s2 <- Py64.add s1 (Py64.Int pause_score) ;;
  s3 <- Py64.add s2 (Py64.Int sentiment_score) ;;
  mean <- Py64.truediv s3 (Py64.Int 4) ;;
  Py64.int mean.

(** Steps 4 to 7 of [analyze_audio] and the value it returns. *)
Definition analyze_audio (result : Result.t) : Py64.res Report.t :=
  let words := Result.get (Result.words result) [] in
  let transcript_text := Result.get (Result.text result) "" in
  let '(filler_count, detected_fillers) := detect_fillers lower words in
  '(long_pauses, detected_pauses) <- detect_pauses words ;;
  let audio_duration := Result.get (Result.audio_duration result) (Py64.Int 0) in
  wpm <- wpm words audio_duration ;;
  '(wpm_score, wpm_feedback) <- pacing wpm ;;
  let filler_score := filler_score lower detected_fillers in
  let filler_feedback := filler_feedback lower detected_fillers in
  let pause_score := pause_score detected_pauses in
  let pause_feedback := pause_feedback detected_pauses in
  let sentiment_results := Result.get (Result.sentiment_analysis_results result) [] in
  let total_sentences := Py.len sentiment_results in
  '(negative_count, sentiment_score) <- sentiment sentiment_results ;;
  let sentiment_feedback := sentiment_feedback sentiment_score in
  overall_score <- overall_score wpm_score filler_score pause_score sentiment_score ;;
  let final_feedback :=
    wpm_feedback ++ " " ++ filler_feedback ++ " " ++ pause_feedback ++ " "
      ++ sentiment_feedback in
  Py64.Ok {|
    Report.score := overall_score;
    Report.wpm := Py64.round1 wpm;
    Report.fillers_detected := filler_count;
    Report.long_pauses := long_pauses;
    Report.category_scores := {|
      Scores.pacing := wpm_score;
      Scores.fillers := filler_score;
      Scores.pauses := pause_score;
      Scores.sentiment := sentiment_score |};
    Report.category_feedback := {|
      Feedback.pacing := wpm_feedback;
      Feedback.fillers := filler_feedback;
      Feedback.pauses := pause_feedback;
      Feedback.sentiment := sentiment_feedback |};
    Report.sentiment_stats := {|
      Stats.negative_sentences := negative_count;
      Stats.total_sentences := total_sentences |};
    Report.feedback := final_feedback;
    Report.transcript_text := transcript_text;
    Report.words := words;
    Report.detailed_pauses := detected_pauses |}.

End Engine.

(** Inputs of the scenarios. *)
Definition transcript (words : list Word.t) (audio_duration : Py64.num)
    (sentences : list Sentence.t) : Result.t :=
  {| Result.words := Some words;
     Result.text := Some "";
     Result.audio_duration := Some audio_duration;
     Result.sentiment_analysis_results := Some sentences |}.

End B64.

(** ** The specification's formulas, read with Python's floats

    The formulas of §4.4 to §4.6 with each division, product and sum
    rounded to the nearest double, as the code evaluates them. *)

(** §4.4: the duration the rate is computed over, in seconds. *)
Definition spec64_effective_duration (first last : Word.t) (audio_duration : Py64.num)
    : Py64.res Py64.num :=
  let buffered_ms := Word.end_ last - Word.start first + 1000 in
  if buffered_ms >? 0
  then Py64.truediv (Py64.Int buffered_ms) (Py64.Float (Py64.nearest 1000 0))
  else Py64.Ok audio_duration.

(** §4.4: words per minute; the denominator is one minute when the
    duration is not positive, and the rate is 0 when the minutes round to
    zero. *)
Definition spec64_wpm (word_count : Z) (effective_duration : Py64.num)
    : Py64.res Py64.num :=
  if Py64.gt effective_duration (Py64.Int 0) then
    Py64.bind (Py64.truediv effective_duration (Py64.Float (Py64.nearest 60 0)))
      (fun minutes =>
         if Py64.gt minutes (Py64.Int 0)
         then Py64.truediv (Py64.Int word_count) minutes
         else Py64.Ok (Py64.Int 0))
  else Py64.truediv (Py64.Int word_count) (Py64.Int 1).

(** §4.5: the tone score. *)
Definition spec64_sentiment_score (sentences : list Sentence.t) : Py64.res Z :=
  match sentences with
  | [] => Py64.Ok 100
  | _ :: _ =>
      Py64.bind
        (Py64.truediv (Py64.Int (Py.len (spec_negatives sentences)))
           (Py64.Int (Py.len sentences)))
        (fun neg_ratio =>
           if Py64.gt neg_ratio (Py64.Float (Py64.literal 1 10)) then
             Py64.bind (Py64.mul neg_ratio (Py64.Int 100)) (fun percent =>
             Py64.bind (Py64.int percent) (fun whole =>
             Py64.Ok (Z.max 0 (100 - whole))))
           else Py64.Ok 100)
  end.

(** §4.6: the mean of the four scores, summed from the left. *)
Definition spec64_mean (scores : B64.Scores.t) : Py64.res Py64.num :=
  Py64.bind (Py64.add (B64.Scores.pacing scores) (Py64.Int (B64.Scores.fillers scores)))
    (fun s1 =>
  Py64.bind (Py64.add s1 (Py64.Int (B64.Scores.pauses scores))) (fun s2 =>
  Py64.bind (Py64.add s2 (Py64.Int (B64.Scores.sentiment scores))) (fun s3 =>
  Py64.truediv s3 (Py64.Int 4)))).

(** §4.6 in exact arithmetic: the mean of the values of the four scores. *)
Definition exact_mean (scores : B64.Scores.t) : Q :=
  (Py64.val (B64.Scores.pacing scores) + inject_Z (B64.Scores.fillers scores)
   + inject_Z (B64.Scores.pauses scores) + inject_Z (B64.Scores.sentiment scores)) / 4.

(** [n] words, the last one ending [span] milliseconds after the first
    starts. *)
Definition spoken (n : nat) (span : Z) : list Word.t :=
  match n with
  | O => []
  | S k => (repeat (word "a" 0 0) k ++ [word "a" 0 span])%list
  end.

(** A run that is stopped neither by a subscript out of range nor by a
    division by zero. *)
Definition guarded {A} (r : Py64.res A) : Prop :=
  match r with
  | Py64.Raise Py64.IndexError | Py64.Raise Py64.ZeroDivisionError => False
  | _ => True
  end.

(** ** Facts about the primitives *)

Lemma Qltb_lt (a b : Q) : Py.Qltb a b = true <-> (a < b)%Q.
Proof.
  unfold Py.Qltb. rewrite negb_true_iff, <- not_true_iff_false, Qle_bool_iff.
  split; [apply Qnot_le_lt | apply Qlt_not_le].
Qed.

Lemma Qltb_ge (a b : Q) : Py.Qltb a b = false <-> (b <= a)%Q.
Proof.
  unfold Py.Qltb. rewrite negb_false_iff. apply Qle_bool_iff.
Qed.


Lemma val_sub (a b : Py.num) : (Py.val (Py.sub a b) == Py.val a - Py.val b)%Q.
Proof.
  destruct a, b; cbn [Py.val Py.sub]; try reflexivity.
  unfold Z.sub. rewrite inject_Z_plus, inject_Z_opp. reflexivity.
Qed.


Lemma truediv_ok (a b : Py.num) :
  ~ (Py.val b == 0)%Q -> Py.truediv a b = Py.Ok (Py.Float (Py.val a / Py.val b)).
Proof.
  intros Hb. unfold Py.truediv.
  destruct (Qeq_bool (Py.val b) 0) eqn:E; [|reflexivity].
  apply Qeq_bool_iff in E. contradiction.
Qed.


Lemma len_app {A} (l l' : list A) : Py.len (l ++ l') = Py.len l + Py.len l'.
Proof. unfold Py.len. rewrite length_app. lia. Qed.



Lemma last_default {A} (a b c : A) (l : list A) : last (c :: l) a = last (c :: l) b.
Proof.
  revert c. induction l as [|d l IH]; intros c; [reflexivity|].
  change (last (d :: l) a = last (d :: l) b). apply IH.
Qed.

Lemma last_cons {A} (a b : A) (l : list A) : last (b :: l) a = last l b.
Proof.
  destruct l as [|c l]; [reflexivity|].
  change (last (c :: l) a = last (c :: l) b). apply last_default.
Qed.

(** [l[-1]] is the last element of a list that has one. *)
Lemma getitem_last {A} (a : A) (l : list A) :
  Py.getitem (a :: l) (-1) = Py.Ok (last l a).
Proof.
  assert (H : nth_error (a :: l) (List.length l) = Some (last l a)).
  { revert a. induction l as [|b l IH]; intros a; [reflexivity|].
    change (nth_error (b :: l) (List.length l) = Some (last (b :: l) a)).
    rewrite IH, last_cons. reflexivity. }
  unfold Py.getitem, Py.len. cbn [Z.ltb Z.compare].
  simpl List.length.
  replace (-1 + Z.of_nat (S (List.length l))) with (Z.of_nat (List.length l)) by lia.
  replace ((0 <=? Z.of_nat (List.length l))
           && (Z.of_nat (List.length l) <? Z.of_nat (S (List.length l)))) with true
    by (symmetry; apply andb_true_iff; split; [apply Z.leb_le | apply Z.ltb_lt]; lia).
  rewrite Nat2Z.id, H. reflexivity.
Qed.

Lemma range_seq (n : nat) : Py.range (Z.of_nat n) = map Z.of_nat (seq 0 n).
Proof. unfold Py.range. rewrite Nat2Z.id. reflexivity. Qed.




(** ** The analyzers, one at a time *)

Section Analyzers.

Variable lower : string -> string.

(** *** Fillers *)










End Analyzers.

(** *** Pauses *)

Section PauseLoop.

Variable words : list Word.t.






End PauseLoop.






(** *** Pacing *)

Lemma audio_duration_sec_cons (w0 : Word.t) (rest : list Word.t) (audio : Py.num) :
  audio_duration_sec (w0 :: rest) audio
  = Py.Ok (let adjusted_duration_ms := Word.end_ (last rest w0) - Word.start w0 + 1000 in
           if adjusted_duration_ms >? 0
           then Py.Float (inject_Z adjusted_duration_ms / 1000)
           else audio).
Proof.
  unfold audio_duration_sec.
  replace (Py.len (w0 :: rest) >? 0) with true
    by (symmetry; apply Z.gtb_gt; unfold Py.len; cbn [List.length]; lia).
  change (Py.getitem (w0 :: rest) 0) with (Py.Ok w0). cbn [Py.bind].
  rewrite getitem_last. cbn [Py.bind].
  destruct (Word.end_ (last rest w0) - Word.start w0 + 1000 >? 0); [|reflexivity].
  apply truediv_ok. cbn [Py.val]. discriminate.
Qed.


(** Both divisions of the pacing block have a positive divisor. *)
Lemma wpm_of_sec (words : list Word.t) (audio sec : Py.num) :
  audio_duration_sec words audio = Py.Ok sec ->
  wpm words audio = Py.Ok (Py.Float (spec_wpm (Py.len words) (Py.val sec))).
Proof.
  intros Hsec. unfold wpm, spec_wpm. rewrite Hsec. cbn [Py.bind].
  unfold audio_duration_min, Py.gt. cbn [Py.val].
  change (inject_Z 0) with 0%Q.
  destruct (Py.Qltb 0 (Py.val sec)) eqn:E.
  - apply Qltb_lt in E.
    rewrite truediv_ok by (cbn [Py.val]; discriminate). cbn [Py.bind Py.val].
    assert (Hm : (0 < Py.val sec / 60)%Q).
    { apply Qlt_shift_div_l; [reflexivity | now rewrite Qmult_0_l]. }
    replace (Py.Qltb 0 (Py.val sec / 60)) with true by (symmetry; now apply Qltb_lt).
    apply truediv_ok. cbn [Py.val]. intros Z0. rewrite Z0 in Hm. discriminate.
  - cbn [Py.bind Py.val]. reflexivity.
Qed.


(** What the two branches of the pacing score evaluate to. *)
Lemma pacing_slow (w : Py.num) :
  (Py.val w < 130)%Q ->
  (Py.val (Py.sub (Py.Int 100) (Py.sub (Py.Int min_wpm) w)) == Py.val w - 30)%Q.
Proof.
  intros _. rewrite !val_sub. cbn [Py.val]. unfold min_wpm.
  change (inject_Z 100) with 100%Q. change (inject_Z 130) with 130%Q. lra.
Qed.

Lemma pacing_fast (w : Py.num) :
  (170 < Py.val w)%Q ->
  (Py.val (Py.sub (Py.Int 100) (Py.sub w (Py.Int max_wpm))) == 270 - Py.val w)%Q.
Proof.
  intros _. rewrite !val_sub. cbn [Py.val]. unfold max_wpm.
  change (inject_Z 100) with 100%Q. change (inject_Z 170) with 170%Q. lra.
Qed.



(** *** Sentiment *)

Lemma negative_count_spec (sentences : list Sentence.t) :
  negative_count sentences = Py.len (spec_negatives sentences).
Proof.
  unfold negative_count, spec_negatives.
  assert (G : forall c,
    fold_left
      (fun negative_count sent =>
         if String.eqb (Sentence.sentiment sent) "NEGATIVE"
         then negative_count + 1 else negative_count) sentences c
    = c + Py.len (filter (fun s => String.eqb (Sentence.sentiment s) "NEGATIVE")
                         sentences)).
  { induction sentences as [|s l IH]; intros c; cbn [fold_left filter].
    - unfold Py.len. simpl. lia.
    - rewrite IH. destruct (String.eqb _ _); unfold Py.len; cbn [List.length]; lia. }
  now rewrite G.
Qed.





(** *** Overall *)


(** ** The whole report *)


(** ** Integral values *)

Lemma is_integer_iff (x : Py.num) :
  is_integer x = true <-> exists z : Z, (Py.val x == inject_Z z)%Q.
Proof.
  destruct x as [z|q]; cbn [is_integer Py.val].
  - split; [intros _; now exists z | reflexivity].
  - rewrite Qeq_bool_iff. split.
    + intros H. now exists (Qfloor q).
    + intros [z Hz]. rewrite Hz at 2. rewrite Qfloor_Z. exact Hz.
Qed.

(** An integer minus [q], or [q] minus an integer, is integral when [q] is. *)
Lemma is_integer_shift (x y : Py.num) (c s : Z) :
  s = 1 \/ s = -1 ->
  (Py.val x == inject_Z c + inject_Z s * Py.val y)%Q ->
  is_integer x = is_integer y.
Proof.
  intros Hs E. apply eq_true_iff_eq. rewrite !is_integer_iff. split; intros [z Hz].
  - exists (s * (z - c)). rewrite inject_Z_mult. unfold Z.sub.
    rewrite inject_Z_plus, inject_Z_opp, <- Hz, E.
    destruct Hs as [-> | ->].
    + change (inject_Z 1) with 1%Q. ring.
    + change (inject_Z (-1)) with (-1)%Q. ring.
  - exists (c + s * z). rewrite inject_Z_plus, inject_Z_mult, E, Hz. reflexivity.
Qed.

(** The pacing score, by the position of the rate. *)
Lemma wpm_score_cases (w : Py.num) :
  ((Py.val w <= 30 \/ 270 <= Py.val w)%Q /\ wpm_score w = Py.Int 0)
  \/ ((130 <= Py.val w <= 170)%Q /\ wpm_score w = Py.Int 100)
  \/ ((30 < Py.val w < 130)%Q
      /\ (Py.val (wpm_score w) == Py.val w - 30)%Q
      /\ is_integer (wpm_score w) = is_integer w)
  \/ ((170 < Py.val w < 270)%Q
      /\ (Py.val (wpm_score w) == 270 - Py.val w)%Q
      /\ is_integer (wpm_score w) = is_integer w).
Proof.
  unfold wpm_score, pacing, Py.lt, Py.gt. cbn [Py.val].
  change (inject_Z min_wpm) with 130%Q. change (inject_Z max_wpm) with 170%Q.
  destruct (Py.Qltb (Py.val w) 130) eqn:Eslow; cbn [fst].
  - apply Qltb_lt in Eslow. pose proof (pacing_slow w Eslow) as V.
    unfold Py.max, Py.gt. cbn [Py.val]. change (inject_Z 0) with 0%Q.
    destruct (Py.Qltb 0 _) eqn:E.
    + apply Qltb_lt in E. rewrite V in E. right; right; left.
      split; [lra|]. split; [exact V|].
      apply (is_integer_shift _ _ (-30) 1); [now left|].
      rewrite V. change (inject_Z (-30)) with (-30)%Q. change (inject_Z 1) with 1%Q. ring.
    + apply Qltb_ge in E. rewrite V in E. left. split; [left; lra | reflexivity].
  - apply Qltb_ge in Eslow.
    destruct (Py.Qltb 170 (Py.val w)) eqn:Efast; cbn [fst].
    + apply Qltb_lt in Efast. pose proof (pacing_fast w Efast) as V.
      unfold Py.max, Py.gt. cbn [Py.val]. change (inject_Z 0) with 0%Q.
      destruct (Py.Qltb 0 _) eqn:E.
      * apply Qltb_lt in E. rewrite V in E. right; right; right.
        split; [lra|]. split; [exact V|].
        apply (is_integer_shift _ _ 270 (-1)); [now right|].
        rewrite V. change (inject_Z 270) with 270%Q.
        change (inject_Z (-1)) with (-1)%Q. ring.
      * apply Qltb_ge in E. rewrite V in E. left. split; [right; lra | reflexivity].
    + apply Qltb_ge in Efast. right; left. split; [lra | reflexivity].
Qed.

(** ** Membership in the specified lists *)





(** ** Scenarios *)

Example perfect_pacing_at_150 :
  pacing (Py.Float 150) = (Py.Int 100, "Perfect pacing.").
Proof. reflexivity. Qed.

Example too_fast_at_200 :
  pacing (Py.Float 200)
  = (Py.Float (100 - (200 - inject_Z 170)),
     "Your pace is too fast. Slow down to 130-170 WPM for the clearest speech.").
Proof. reflexivity. Qed.

Example empty_transcript :
  exists report,
    analyze_audio Py.ascii_lower (transcript [] (Py.Int 0) []) = Py.Ok report
    /\ Report.fillers_detected report = 0
    /\ Report.long_pauses report = 0
    /\ Report.category_scores report
       = {| Scores.pacing := Py.Int 0; Scores.fillers := 100;
            Scores.pauses := 100; Scores.sentiment := 100 |}
    /\ Report.score report = 75.
Proof. eexists. split; [vm_compute; reflexivity|]. repeat split. Qed.

Example um_test_feedback :
  exists report,
    analyze_audio Py.ascii_lower
      (transcript [word "Um," 0 500; word "test" 600 1000] (Py.Float 2) [])
    = Py.Ok report
    /\ (Py.val (Report.wpm report) == 60)%Q
    /\ (Py.val (Scores.pacing (Report.category_scores report)) == 30)%Q
    /\ Report.score report = 81
    /\ Report.feedback report
       = "Your pace is too slow. Aim for 130-170 WPM for the clearest speech. "
         ++ "A few filler words were detected, try to reduce usage of them. "
         ++ "Flow is continuous, great job! Tone is positive and professional.".
Proof. eexists. split; [vm_compute; reflexivity|]. repeat split. Qed.

Example long_pause_record :
  detect_pauses [word "a" 0 100; word "b" 2000 2100]
  = Py.Ok (1, [{| Pause.after_word_index := 0;
                  Pause.duration := Py.Float (inject_Z 1900 / 1000) |}]).
Proof. reflexivity. Qed.

(** Inverted timestamps leave the reported duration in use. *)
Example inverted_span_uses_audio_duration :
  wpm [word "a" 5000 5100; word "b" 0 100] (Py.Float 60) = Py.Ok (Py.Float (2 / (60 / 60)))
  /\ wpm [word "a" 5000 5100; word "b" 0 100] (Py.Float 0) = Py.Ok (Py.Float (2 / 1)).
Proof. split; reflexivity. Qed.

(** ** The claims *)








(** C10: when the transcript has words and the end of the last word minus
    the start of the first exceeds -1000 ms, the report does not depend on
    the reported audio duration. *)
Theorem report_independent_of_audio_duration
    (lower : string -> string) (result : Result.t)
    (w0 : Word.t) (rest : list Word.t) (d : option Py.num) :
  Result.get (Result.words result) [] = w0 :: rest ->
  Word.end_ (last rest w0) - Word.start w0 > -1000 ->
  analyze_audio lower (with_audio_duration result d) = analyze_audio lower result.
Proof.
  intros Hwords Hspan.
  assert (W : forall audio audio',
    wpm (w0 :: rest) audio = wpm (w0 :: rest) audio').
  { intros audio audio'.
    rewrite (wpm_of_sec _ _ _ (audio_duration_sec_cons w0 rest audio)).
    rewrite (wpm_of_sec _ _ _ (audio_duration_sec_cons w0 rest audio')).
    cbv zeta.
    replace (Word.end_ (last rest w0) - Word.start w0 + 1000 >? 0) with true
      by (symmetry; apply Z.gtb_gt; lia).
    reflexivity. }
  unfold analyze_audio, with_audio_duration.
  cbn [Result.words Result.text Result.audio_duration
       Result.sentiment_analysis_results].
  rewrite Hwords.
  rewrite (W (Result.get d (Py.Int 0))
             (Result.get (Result.audio_duration result) (Py.Int 0))).
  reflexivity.
Qed.

(** C10, witness: the report of two words over a second, with a reported
    duration of an hour instead of two seconds. *)
Lemma report_independent_witness :
  analyze_audio Py.ascii_lower
    (with_audio_duration
       (transcript [word "um" 0 500; word "test" 600 1000] (Py.Float 2) [])
       (Some (Py.Float 3600)))
  = analyze_audio Py.ascii_lower
      (transcript [word "um" 0 500; word "test" 600 1000] (Py.Float 2) []).
Proof.
  apply (report_independent_of_audio_duration Py.ascii_lower
           (transcript [word "um" 0 500; word "test" 600 1000] (Py.Float 2) [])
           (word "um" 0 500) [word "test" 600 1000] (Some (Py.Float 3600))).
  - reflexivity.
  - reflexivity.
Defined.


(** ** Further properties of the scoring *)











(** X5: the pacing score is 100, with the perfect-pacing message, exactly
    for a rate within the band 130..170, and a rate nearer to the band never
    scores lower. *)
Theorem pacing_score_by_distance :
  (forall rate : Py.num,
     ((Py.val (wpm_score rate) == 100)%Q <-> (130 <= Py.val rate <= 170)%Q)
     /\ (wpm_feedback rate = "Perfect pacing." <-> (130 <= Py.val rate <= 170)%Q))
  /\ (forall rate rate' : Py.num,
        (band_distance (Py.val rate) <= band_distance (Py.val rate'))%Q ->
        (Py.val (wpm_score rate') <= Py.val (wpm_score rate))%Q).
Proof.
  assert (F : forall rate : Py.num,
    (Py.val (wpm_score rate)
     == if Py.Qltb (band_distance (Py.val rate)) 100
        then 100 - band_distance (Py.val rate) else 0)%Q).
  { intros rate. unfold band_distance.
    destruct (wpm_score_cases rate)
      as [[B E] | [[B E] | [(B & V & _) | (B & V & _)]]].
    - rewrite E. cbn [Py.val]. change (inject_Z 0) with 0%Q.
      destruct B as [B | B].
      + replace (Py.Qltb (Py.val rate) 130) with true by (symmetry; apply Qltb_lt; lra).
        replace (Py.Qltb (130 - Py.val rate) 100) with false
          by (symmetry; apply Qltb_ge; lra).
        reflexivity.
      + replace (Py.Qltb (Py.val rate) 130) with false by (symmetry; apply Qltb_ge; lra).
        replace (Py.Qltb 170 (Py.val rate)) with true by (symmetry; apply Qltb_lt; lra).
        replace (Py.Qltb (Py.val rate - 170) 100) with false
          by (symmetry; apply Qltb_ge; lra).
        reflexivity.
    - rewrite E. cbn [Py.val]. change (inject_Z 100) with 100%Q.
      replace (Py.Qltb (Py.val rate) 130) with false by (symmetry; apply Qltb_ge; lra).
      replace (Py.Qltb 170 (Py.val rate)) with false by (symmetry; apply Qltb_ge; lra).
      replace (Py.Qltb 0 100) with true by reflexivity. lra.
    - rewrite V.
      replace (Py.Qltb (Py.val rate) 130) with true by (symmetry; apply Qltb_lt; lra).
      replace (Py.Qltb (130 - Py.val rate) 100) with true
        by (symmetry; apply Qltb_lt; lra).
      lra.
    - rewrite V.
      replace (Py.Qltb (Py.val rate) 130) with false by (symmetry; apply Qltb_ge; lra).
      replace (Py.Qltb 170 (Py.val rate)) with true by (symmetry; apply Qltb_lt; lra).
      replace (Py.Qltb (Py.val rate - 170) 100) with true
        by (symmetry; apply Qltb_lt; lra).
      lra. }
  split.
  - intros rate. split.
    + destruct (wpm_score_cases rate)
        as [[B E] | [[B E] | [(B & V & _) | (B & V & _)]]].
      * rewrite E. cbn [Py.val]. change (inject_Z 0) with 0%Q. split; intros; lra.
      * rewrite E. cbn [Py.val]. change (inject_Z 100) with 100%Q.
        split; [intros _; exact B | reflexivity].
      * rewrite V. split; intros; lra.
      * rewrite V. split; intros; lra.
    + unfold wpm_feedback, pacing, Py.lt, Py.gt. cbn [Py.val].
      change (inject_Z min_wpm) with 130%Q. change (inject_Z max_wpm) with 170%Q.
      destruct (Py.Qltb (Py.val rate) 130) eqn:Eslow; cbn [snd].
      * apply Qltb_lt in Eslow. split; [discriminate | intros; lra].
      * apply Qltb_ge in Eslow.
        destruct (Py.Qltb 170 (Py.val rate)) eqn:Efast; cbn [snd].
        -- apply Qltb_lt in Efast. split; [discriminate | intros; lra].
        -- apply Qltb_ge in Efast. split; [intros _; lra | reflexivity].
  - intros rate rate' D. rewrite (F rate), (F rate').
    assert (N : forall q, (0 <= band_distance q)%Q).
    { intros q. unfold band_distance.
      destruct (Py.Qltb q 130) eqn:A; [apply Qltb_lt in A; lra|].
      destruct (Py.Qltb 170 q) eqn:B; [apply Qltb_lt in B; lra | lra]. }
    pose proof (N (Py.val rate)). pose proof (N (Py.val rate')).
    destruct (Py.Qltb (band_distance (Py.val rate)) 100) eqn:A;
      destruct (Py.Qltb (band_distance (Py.val rate')) 100) eqn:B;
      try apply Qltb_lt in A; try apply Qltb_ge in A;
      try apply Qltb_lt in B; try apply Qltb_ge in B; lra.
Qed.

(** X5, witness: rates 120 and 200, ten and thirty outside the band. *)
Lemma pacing_score_by_distance_witness :
  (Py.val (wpm_score (Py.Float 200)) <= Py.val (wpm_score (Py.Float 120)))%Q.
Proof.
  apply (proj2 pacing_score_by_distance (Py.Float 120) (Py.Float 200)).
  vm_compute. discriminate.
Defined.




(** *** What each analyzer reads *)















(** *** Order of the inputs *)







(** ** The endpoint and the service *)

Section Polling.

Variables (headers : Http.headers) (polling_endpoint : string).

Lemma in_progress_inv (r : Http.response) :
  in_progress r = true ->
  exists b status,
    Http.json r = Some b /\ Http.status b = Some status
    /\ String.eqb status "completed" = false /\ String.eqb status "error" = false.
Proof.
  unfold in_progress. destruct (Http.json r) as [b|]; [|discriminate].
  destruct (Http.status b) as [status|] eqn:Es; [|discriminate].
  intros H. apply negb_true_iff, orb_false_iff in H. destruct H as [Hc He].
  exists b, status. repeat split; assumption.
Qed.

(** The turns that find the transcript in progress only poll and sleep. *)
Lemma poll_in_progress (waiting rest : list Http.response) (log : list Http.event) :
  Forall (fun r => in_progress r = true) waiting ->
  poll headers polling_endpoint (waiting ++ rest) log
  = poll headers polling_endpoint rest
      (log ++ polling_log headers polling_endpoint (List.length waiting))%list.
Proof.
  intros H. revert log.
  induction H as [|r waiting Hr _ IH]; intros log.
  - cbn [app List.length polling_log]. now rewrite app_nil_r.
  - destruct (in_progress_inv r Hr) as (b & status & Ej & Es & Ec & Ee).
    cbn [app poll List.length polling_log]. rewrite Ej, Es, Ec, Ee, IH.
    f_equal. rewrite <- !app_assoc. reflexivity.
Qed.

End Polling.

(** X12: polling returns the first reply whose status is [completed], and
    raises the 500 "Transcription failed" at the first whose status is
    [error]; until then it has sent one GET to the transcript's address for
    each reply and slept a quarter of a second after each reply in
    progress, and it leaves the later replies unread. *)
Theorem polling_ends_at_first_final_reply
    (API_KEY : option string) (transcript_id : string)
    (waiting rest : list Http.response) (r : Http.response) (b : Http.body)
    (log : list Http.event) :
  Forall (fun r => in_progress r = true) waiting ->
  Http.json r = Some b ->
  let headers := [("authorization", API_KEY)] in
  let polling_endpoint := TRANSCRIPT_ENDPOINT ++ "/" ++ transcript_id in
  let after :=
    {| Http.replies := rest;
       Http.log := (log ++ polling_log headers polling_endpoint (List.length waiting)
                        ++ [Http.Get polling_endpoint headers])%list |} in
  let run :=
    get_transcription_result API_KEY transcript_id
      {| Http.replies := (waiting ++ r :: rest)%list; Http.log := log |} in
  (Http.status b = Some "completed" -> run = (Http.Return b, after))
  /\ (Http.status b = Some "error" ->
      run = (Http.Raise (Http.HTTPException 500 "Transcription failed"), after)).
Proof.
  intros Hw Hj headers polling_endpoint after run.
  unfold run, get_transcription_result. cbn [Http.replies Http.log].
  rewrite poll_in_progress by exact Hw. cbn [poll]. rewrite Hj.
  unfold after. rewrite <- app_assoc.
  split; intros ->; reflexivity.
Qed.

(** X13: polling has no limit: as long as the service answers with a
    status other than [completed] and [error] the loop polls again, one GET
    and one sleep for each such reply, and it is then waiting for the reply
    to one more GET. *)
Theorem polling_has_no_limit
    (API_KEY : option string) (transcript_id : string)
    (waiting : list Http.response) (log : list Http.event) :
  Forall (fun r => in_progress r = true) waiting ->
  let headers := [("authorization", API_KEY)] in
  let polling_endpoint := TRANSCRIPT_ENDPOINT ++ "/" ++ transcript_id in
  get_transcription_result API_KEY transcript_id
    {| Http.replies := waiting; Http.log := log |}
  = (Http.Waiting,
     {| Http.replies := [];
        Http.log := (log ++ polling_log headers polling_endpoint (List.length waiting)
                         ++ [Http.Get polling_endpoint headers])%list |}).
Proof.
  intros Hw headers polling_endpoint.
  unfold get_transcription_result. cbn [Http.replies Http.log].
  rewrite <- (app_nil_r waiting) at 1.
  rewrite poll_in_progress by exact Hw. cbn [poll].
  now rewrite <- app_assoc.
Qed.

(** *** What a run leaves behind *)

Section Extends.

Variable API_KEY : option string.

Lemma requests_sent_app (l l' : list Http.event) :
  requests_sent (l ++ l') = (requests_sent l + requests_sent l')%nat.
Proof. unfold requests_sent. now rewrite filter_app, length_app. Qed.

Lemma extends_ret {A} (a : A) (w : Http.world) : extends API_KEY w (Http.ret a w).
Proof.
  exists [], []. cbn. rewrite app_nil_r. repeat split. constructor.
Qed.

Lemma extends_raise {A} (e : Http.failure) (w : Http.world) :
  extends API_KEY w (@Http.raise A e w).
Proof.
  exists [], []. cbn. rewrite app_nil_r. repeat split. constructor.
Qed.

Lemma extends_emit (e : Http.event) (w : Http.world) :
  is_request e = false -> extends API_KEY w (Http.emit e w).
Proof.
  intros He. exists [e], []. cbn [Http.emit snd fst Http.log Http.replies app].
  repeat split.
  - constructor; [|constructor]. destruct e; try discriminate; exact I.
  - unfold requests_sent. cbn [filter]. now rewrite He.
Qed.

Lemma extends_request (e : Http.event) (w : Http.world) :
  is_request e = true -> to_service API_KEY e -> extends API_KEY w (Http.request e w).
Proof.
  intros He Hs. unfold Http.request.
  destruct (Http.replies w) as [|r rest] eqn:E.
  - exists [e], []. cbn [snd fst Http.log Http.replies app]. repeat split.
    + exact E.
    + constructor; [exact Hs | constructor].
    + unfold requests_sent. cbn [filter]. now rewrite He.
  - exists [e], [r]. cbn [snd fst Http.log Http.replies app]. repeat split.
    + exact E.
    + constructor; [exact Hs | constructor].
    + unfold requests_sent. cbn [filter]. now rewrite He.
Qed.

(** Runs compose: what the second part leaves behind comes after what the
    first did. *)
Lemma extends_bind {A B} (m : Http.io A) (k : A -> Http.io B) :
  (forall w, extends API_KEY w (m w)) ->
  (forall a w, extends API_KEY w (k a w)) ->
  forall w, extends API_KEY w (Http.bind m k w).
Proof.
  intros Hm Hk w. unfold Http.bind. specialize (Hm w).
  destruct (m w) as [[a | e |] w1].
  - destruct Hm as (new1 & used1 & L1 & R1 & F1 & C1).
    destruct (Hk a w1) as (new2 & used2 & L2 & R2 & F2 & C2).
    cbn [fst snd] in *.
    exists (new1 ++ new2)%list, (used1 ++ used2)%list. repeat split.
    + now rewrite L2, L1, app_assoc.
    + now rewrite R1, R2, app_assoc.
    + apply Forall_app. split; assumption.
    + rewrite requests_sent_app, C1, C2, length_app. lia.
  - destruct Hm as (new1 & used1 & L1 & R1 & F1 & C1).
    exists new1, used1. repeat split; assumption.
  - destruct Hm as (new1 & used1 & L1 & R1 & F1 & C1).
    exists new1, used1. repeat split; assumption.
Qed.

Lemma extends_json_of (r : Http.response) (w : Http.world) :
  extends API_KEY w (Http.json_of r w).
Proof.
  unfold Http.json_of. destruct (Http.json r); [apply extends_ret | apply extends_raise].
Qed.

Lemma extends_getkey {A} (key : string) (field : option A) (w : Http.world) :
  extends API_KEY w (Http.getkey key field w).
Proof.
  unfold Http.getkey. destruct field; [apply extends_ret | apply extends_raise].
Qed.

Lemma extends_upload (audio_data : string) (w : Http.world) :
  extends API_KEY w (upload_to_assemblyai API_KEY audio_data w).
Proof.
  unfold upload_to_assemblyai. apply extends_bind.
  - intros w0. apply extends_request; [reflexivity|].
    split; [now left | now left].
  - intros r w0. destruct (negb (Http.status_code r =? 200)).
    + apply extends_bind; [|intros; apply extends_raise].
      intros w1. now apply extends_emit.
    + apply extends_bind; [apply extends_json_of | intros; apply extends_getkey].
Qed.

Lemma extends_transcribe (upload_url : string) (w : Http.world) :
  extends API_KEY w (transcribe_audio API_KEY upload_url w).
Proof.
  unfold transcribe_audio. apply extends_bind.
  - intros w0. apply extends_request; [reflexivity|].
    split; [now left | now right].
  - intros r w0. destruct (negb (Http.status_code r =? 200)).
    + apply extends_bind; [|intros; apply extends_raise].
      intros w1. now apply extends_emit.
    + apply extends_bind; [apply extends_json_of | intros; apply extends_getkey].
Qed.

Lemma extends_poll (transcript_id : string) (replies : list Http.response)
    (log : list Http.event) :
  extends API_KEY {| Http.replies := replies; Http.log := log |}
    (poll [("authorization", API_KEY)] (TRANSCRIPT_ENDPOINT ++ "/" ++ transcript_id)
       replies log).
Proof.
  set (h := [("authorization", API_KEY)]).
  set (ep := TRANSCRIPT_ENDPOINT ++ "/" ++ transcript_id).
  assert (G : to_service API_KEY (Http.Get ep h))
    by (split; [now left | now exists transcript_id]).
  assert (One : forall (o : Http.outcome Http.body) used rest log,
    match o with Http.Waiting => used = [] | _ => List.length used = 1%nat end ->
    extends API_KEY {| Http.replies := (used ++ rest)%list; Http.log := log |}
      (o, {| Http.replies := rest; Http.log := (log ++ [Http.Get ep h])%list |})).
  { intros o used rest lg Hu. exists [Http.Get ep h], used.
    cbn [fst snd Http.log Http.replies]. repeat split.
    - constructor; [exact G | constructor].
    - unfold requests_sent. cbn. destruct o; try rewrite Hu; reflexivity. }
  revert log. induction replies as [|r rest IH]; intros log; cbn [poll].
  - apply (One Http.Waiting [] []). reflexivity.
  - destruct (Http.json r) as [b|]; [|apply (One _ [r] rest); reflexivity].
    destruct (Http.status b) as [status|]; [|apply (One _ [r] rest); reflexivity].
    destruct (String.eqb status "completed"); [apply (One _ [r] rest); reflexivity|].
    destruct (String.eqb status "error"); [apply (One _ [r] rest); reflexivity|].
    destruct (IH ((log ++ [Http.Get ep h]) ++ [Http.Sleep (1 # 4)])%list)
      as (new & used & L & R & F & C).
    cbn [fst snd Http.log Http.replies] in *.
    exists (Http.Get ep h :: Http.Sleep (1 # 4) :: new), (r :: used). repeat split.
    + rewrite L, <- !app_assoc. reflexivity.
    + cbn [Http.replies app]. f_equal. exact R.
    + constructor; [exact G|]. constructor; [exact I | exact F].
    + change (Http.Get ep h :: Http.Sleep (1 # 4) :: new)
        with ([Http.Get ep h; Http.Sleep (1 # 4)] ++ new)%list.
      rewrite requests_sent_app, C. cbn [List.length]. reflexivity.
Qed.

Lemma extends_endpoint (lower : string -> string) (file : UploadFile.t)
    (w : Http.world) :
  extends API_KEY w (analyze_endpoint API_KEY lower file w).
Proof.
  unfold analyze_endpoint. destruct (no_api_key API_KEY).
  - apply extends_bind; [|intros; apply extends_raise].
    intros w0. now apply extends_emit.
  - apply extends_bind; [intros w0; now apply extends_emit|].
    intros _ w0. apply extends_bind; [apply extends_upload|].
    intros url w1. apply extends_bind; [apply extends_transcribe|].
    intros id w2. apply extends_bind.
    + intros [replies log]. apply extends_poll.
    + intros b w3. destruct (analyze_audio lower (Http.transcript b));
        [apply extends_ret | apply extends_raise].
Qed.

End Extends.

Lemma poll_failure (headers : Http.headers) (polling_endpoint : string)
    (replies : list Http.response) (log : list Http.event)
    (e : Http.failure) (w' : Http.world) :
  poll headers polling_endpoint replies log = (Http.Raise e, w') ->
  e = Http.HTTPException 500 "Transcription failed"
  \/ e = Http.KeyError "status"
  \/ (e = Http.JSONDecodeError /\ exists r, In r replies /\ Http.json r = None).
Proof.
  revert log. induction replies as [|r rest IH]; intros log; cbn [poll];
    [discriminate|].
  destruct (Http.json r) as [b|] eqn:Ej.
  - destruct (Http.status b) as [status|].
    + destruct (String.eqb status "completed"); [discriminate|].
      destruct (String.eqb status "error").
      * intros H. injection H as <- _. now left.
      * intros H. apply IH in H. destruct H as [H | [H | [H (r' & Hin & Hr')]]]; auto.
        right; right. split; [exact H|]. exists r'. split; [now right | exact Hr'].
    + intros H. injection H as <- _. right; now left.
  - intros H. injection H as <- _. right; right. split; [reflexivity|].
    exists r. split; [now left | exact Ej].
Qed.

(** X14: an [HTTPException] raised by the endpoint is one of four: status
    500 with the detail of the missing key or of the failed transcription,
    or the status other than 200 of a reply of the service, passed on with
    the detail of the failed upload or of the failed start. *)
Theorem endpoint_failures
    (API_KEY : option string) (lower : string -> string) (file : UploadFile.t)
    (w w' : Http.world) (code : Z) (detail : string) :
  analyze_endpoint API_KEY lower file w
  = (Http.Raise (Http.HTTPException code detail), w') ->
  expected_http_exception (Http.replies w) code detail.
Proof.
  unfold analyze_endpoint. destruct (no_api_key API_KEY).
  { intros H. injection H as <- <- _. left. split; [reflexivity | now left]. }
  unfold upload_to_assemblyai, transcribe_audio, get_transcription_result,
    Http.bind, Http.emit, Http.request, Http.json_of, Http.getkey, Http.raise, Http.ret.
  cbn [Http.replies Http.log].
  destruct (Http.replies w) as [|r1 rest1]; [discriminate|].
  destruct (Http.status_code r1 =? 200) eqn:S1; cbn [negb].
  2:{ intros H. injection H as <- <- _. right. exists r1.
      apply Z.eqb_neq in S1. repeat split; [now left | exact S1 | now left]. }
  destruct (Http.json r1) as [b1|] eqn:J1; [|discriminate].
  destruct (Http.upload_url b1) as [url|]; [|discriminate].
  cbn [Http.replies Http.log].
  destruct rest1 as [|r2 rest2]; [discriminate|].
  destruct (Http.status_code r2 =? 200) eqn:S2; cbn [negb].
  2:{ intros H. injection H as <- <- _. right. exists r2.
      apply Z.eqb_neq in S2. repeat split; [right; now left | exact S2 | now right]. }
  destruct (Http.json r2) as [b2|] eqn:J2; [|discriminate].
  destruct (Http.id b2) as [id|]; [|discriminate].
  cbn [Http.replies Http.log].
  destruct (poll _ _ rest2 _) as [[b | e3 |] w3] eqn:P.
  - destruct (analyze_audio lower (Http.transcript b)); discriminate.
  - intros H. injection H as -> _. apply poll_failure in P.
    destruct P as [P | [P | [P _]]]; [|discriminate P..].
    injection P as -> ->. left. split; [reflexivity | now right].
  - discriminate.
Qed.

(** X12, witness: two replies in progress, then the completed one. *)
Lemma polling_ends_witness :
  get_transcription_result (Some "key") "t1"
    (fresh [reply 200 None None (Some "queued") no_result;
            reply 200 None None (Some "processing") no_result;
            reply 200 None None (Some "completed") no_result;
            reply 200 None None (Some "error") no_result])
  = (Http.Return {| Http.upload_url := None; Http.id := None;
                    Http.status := Some "completed"; Http.transcript := no_result |},
     {| Http.replies := [reply 200 None None (Some "error") no_result];
        Http.log :=
          (polling_log [("authorization", Some "key")]
             (TRANSCRIPT_ENDPOINT ++ "/" ++ "t1") 2
           ++ [Http.Get (TRANSCRIPT_ENDPOINT ++ "/" ++ "t1")
                 [("authorization", Some "key")]])%list |}).
Proof.
  assert (W : Forall (fun r => in_progress r = true)
                [reply 200 None None (Some "queued") no_result;
                 reply 200 None None (Some "processing") no_result])
    by (repeat constructor).
  apply (proj1 (polling_ends_at_first_final_reply (Some "key") "t1"
                  [reply 200 None None (Some "queued") no_result;
                   reply 200 None None (Some "processing") no_result]
                  [reply 200 None None (Some "error") no_result]
                  (reply 200 None None (Some "completed") no_result) _ []
                  W eq_refl)).
  reflexivity.
Defined.

(** X13, witness: a transcript that stays queued. *)
Lemma polling_has_no_limit_witness :
  get_transcription_result (Some "key") "t1"
    (fresh (repeat (reply 200 None None (Some "queued") no_result) 3))
  = (Http.Waiting,
     {| Http.replies := [];
        Http.log :=
          (polling_log [("authorization", Some "key")]
             (TRANSCRIPT_ENDPOINT ++ "/" ++ "t1") 3
           ++ [Http.Get (TRANSCRIPT_ENDPOINT ++ "/" ++ "t1")
                 [("authorization", Some "key")]])%list |}).
Proof.
  apply (polling_has_no_limit (Some "key") "t1"
           (repeat (reply 200 None None (Some "queued") no_result) 3) []).
  repeat constructor.
Defined.

(** X14, witness: the upload is refused with status 401. *)
Lemma endpoint_failures_witness :
  expected_http_exception [reply 401 None None None no_result]
    401 "Failed to upload audio to AssemblyAI".
Proof.
  apply (endpoint_failures (Some "key") Py.ascii_lower recording
           (fresh [reply 401 None None None no_result])
           {| Http.replies := [];
              Http.log :=
                [Http.Print "Received file: talk.wav, Content-Type: audio/wav";
                 Http.Post UPLOAD_ENDPOINT [("authorization", Some "key")]
                   (Http.Data "RIFF");
                 Http.Print "Upload Error: 401, "] |}).
  reflexivity.
Defined.

(** X15: every run of the endpoint only adds to the log; each request it
    sends carries the key in its [authorization] header and goes to the
    upload address, the transcript address or the address of a transcript;
    it takes one reply from the script for each request (the last request
    is unanswered when the run is left waiting).  Without a key, or with an
    empty one, it sends no request and raises the 500 "not configured". *)
Theorem requests_go_to_the_service
    (API_KEY : option string) (lower : string -> string) (file : UploadFile.t)
    (w : Http.world) :
  let run := analyze_endpoint API_KEY lower file w in
  exists new used,
    Http.log (snd run) = (Http.log w ++ new)%list
    /\ Http.replies w = (used ++ Http.replies (snd run))%list
    /\ Forall (to_service API_KEY) new
    /\ requests_sent new
       = (List.length used + match fst run with Http.Waiting => 1 | _ => 0 end)%nat
    /\ (no_api_key API_KEY = true ->
        requests_sent new = 0%nat
        /\ fst run
           = Http.Raise (Http.HTTPException 500 "AssemblyAI API Key not configured")).
Proof.
  intros run. destruct (extends_endpoint API_KEY lower file w)
    as (new & used & L & R & F & C).
  fold run in L, R, C. exists new, used.
  split; [exact L|]. split; [exact R|]. split; [exact F|]. split; [exact C|].
  intros K. unfold run, analyze_endpoint in *. rewrite K in *.
  cbn [Http.bind Http.emit Http.raise fst snd Http.log] in *.
  apply app_inv_head in L. subst new. split; reflexivity.
Qed.

(** X15, witness: an empty key. *)
Lemma requests_go_to_the_service_witness :
  fst (analyze_endpoint (Some "") Py.ascii_lower recording
         (fresh [reply 200 (Some "u") None None no_result]))
  = Http.Raise (Http.HTTPException 500 "AssemblyAI API Key not configured").
Proof.
  pose proof (requests_go_to_the_service (Some "") Py.ascii_lower recording
                (fresh [reply 200 (Some "u") None None no_result])) as H.
  cbv zeta in H. destruct H as (new & used & _ & _ & _ & _ & H).
  exact (proj2 (H eq_refl)).
Defined.



(** X17: a status other than 200 from the service is passed on.  When the
    upload is refused the endpoint raises an [HTTPException] with the
    status of that reply and sends nothing more; when the transcription
    request is refused it raises one with the status of that reply and
    never polls.  Each time the status and the body of the reply are
    printed. *)
Theorem upstream_status_is_passed_on
    (API_KEY : option string) (lower : string -> string) (file : UploadFile.t)
    (rest : list Http.response) (log : list Http.event) :
  no_api_key API_KEY = false ->
  let received :=
    Http.Print ("Received file: " ++ format_optional (UploadFile.filename file)
                  ++ ", Content-Type: "
                  ++ format_optional (UploadFile.content_type file)) in
  let upload :=
    Http.Post UPLOAD_ENDPOINT [("authorization", API_KEY)]
      (Http.Data (UploadFile.content file)) in
  (forall r1,
     Http.status_code r1 <> 200 ->
     analyze_endpoint API_KEY lower file
       {| Http.replies := r1 :: rest; Http.log := log |}
     = (Http.Raise (Http.HTTPException (Http.status_code r1)
                      "Failed to upload audio to AssemblyAI"),
        {| Http.replies := rest;
           Http.log :=
             (log ++ [received; upload;
                      Http.Print ("Upload Error: " ++ Py.str (Http.status_code r1)
                                    ++ ", " ++ Http.text r1)])%list |}))
  /\ (forall r1 b1 url r2,
        Http.status_code r1 = 200 -> Http.json r1 = Some b1 ->
        Http.upload_url b1 = Some url ->
        Http.status_code r2 <> 200 ->
        let start :=
          Http.Post TRANSCRIPT_ENDPOINT
            [("authorization", API_KEY); ("content-type", Some "application/json")]
            (Http.Json
               [("audio_url", Http.JString url);
                ("disfluencies", Http.JBool true);
                ("speaker_labels", Http.JBool false);
                ("speech_models", Http.JStrings ["universal-3-pro"; "universal-2"]);
                ("sentiment_analysis", Http.JBool true)]) in
        analyze_endpoint API_KEY lower file
          {| Http.replies := r1 :: r2 :: rest; Http.log := log |}
        = (Http.Raise (Http.HTTPException (Http.status_code r2)
                         "Failed to start transcription"),
           {| Http.replies := rest;
              Http.log :=
                (log ++ [received; upload; start;
                         Http.Print ("Transcript Error: "
                                       ++ Py.str (Http.status_code r2)
                                       ++ ", " ++ Http.text r2)])%list |})).
Proof.
  intros K received upload. split.
  - intros r1 S1. apply Z.eqb_neq in S1.
    unfold analyze_endpoint. rewrite K.
    unfold upload_to_assemblyai, Http.bind, Http.emit, Http.request, Http.raise.
    cbn [Http.replies Http.log]. rewrite S1. cbn [negb Http.replies Http.log].
    do 2 f_equal. rewrite <- !app_assoc. reflexivity.
  - intros r1 b1 url r2 S1 J1 U1 S2 start. apply Z.eqb_neq in S2.
    unfold analyze_endpoint. rewrite K.
    unfold upload_to_assemblyai, transcribe_audio,
      Http.bind, Http.emit, Http.request, Http.json_of, Http.getkey,
      Http.raise, Http.ret.
    cbn [Http.replies Http.log].
    rewrite S1, J1, U1. cbn [Z.eqb Pos.eqb negb Http.replies Http.log].
    rewrite S2. cbn [negb Http.replies Http.log].
    do 2 f_equal. rewrite <- !app_assoc. reflexivity.
Qed.

(** X17, witness: the upload answered with 503. *)
Lemma upstream_status_witness :
  fst (analyze_endpoint (Some "key") Py.ascii_lower recording
         (fresh [{| Http.status_code := 503; Http.text := "busy"; Http.json := None |};
                 reply 200 None (Some "t1") None no_result]))
  = Http.Raise (Http.HTTPException 503 "Failed to upload audio to AssemblyAI").
Proof.
  pose proof (upstream_status_is_passed_on (Some "key") Py.ascii_lower recording
                [reply 200 None (Some "t1") None no_result] [] eq_refl) as H.
  cbv zeta in H. destruct H as [H _].
  unfold fresh.
  rewrite (H {| Http.status_code := 503; Http.text := "busy"; Http.json := None |});
    [reflexivity | discriminate].
Defined.

(** *** Order of the pause records *)





(** ** The engine over binary64 *)

Lemma getitem64_eq {A} (l : list A) (i : Z) :
  Py64.getitem l i
  = match Py.getitem l i with
    | Py.Ok a => Py64.Ok a
    | Py.Raise _ => Py64.Raise Py64.IndexError
    end.
Proof.
  unfold Py64.getitem, Py.getitem.
  destruct ((0 <=? (if i <? 0 then i + Py.len l else i))
            && ((if i <? 0 then i + Py.len l else i) <? Py.len l)); [|reflexivity].
  destruct (nth_error l _); reflexivity.
Qed.

Lemma audio_duration_sec64_cons (w0 : Word.t) (rest : list Word.t) (audio : Py64.num) :
  B64.audio_duration_sec (w0 :: rest) audio
  = spec64_effective_duration w0 (last rest w0) audio.
Proof.
  unfold B64.audio_duration_sec, spec64_effective_duration.
  replace (Py.len (w0 :: rest) >? 0) with true
    by (symmetry; apply Z.gtb_gt; unfold Py.len; cbn [List.length]; lia).
  rewrite !getitem64_eq.
  change (Py.getitem (w0 :: rest) 0) with (Py.Ok w0). cbn [Py64.bind].
  rewrite getitem_last. cbn [Py64.bind]. reflexivity.
Qed.

Lemma wpm64_of_sec (words : list Word.t) (audio : Py64.num) :
  B64.wpm words audio
  = Py64.bind (B64.audio_duration_sec words audio) (spec64_wpm (Py.len words)).
Proof.
  unfold B64.wpm.
  destruct (B64.audio_duration_sec words audio) as [sec|e]; [|reflexivity].
  cbn [Py64.bind]. unfold B64.audio_duration_min, spec64_wpm.
  destruct (Py64.gt sec (Py64.Int 0)); [reflexivity|].
  cbn [Py64.bind]. reflexivity.
Qed.

Lemma wpm64_spec (w0 : Word.t) (rest : list Word.t) (audio : Py64.num) :
  B64.wpm (w0 :: rest) audio
  = Py64.bind (spec64_effective_duration w0 (last rest w0) audio)
      (spec64_wpm (Py.len (w0 :: rest))).
Proof. now rewrite wpm64_of_sec, audio_duration_sec64_cons. Qed.

Lemma guarded_bind {A B} (m : Py64.res A) (k : A -> Py64.res B) :
  guarded m -> (forall a, m = Py64.Ok a -> guarded (k a)) -> guarded (Py64.bind m k).
Proof. destruct m as [a|e]; cbn; [intros _ H; now apply H | intros H _; exact H]. Qed.

Lemma guarded_to_float (x : Py64.num) : guarded (Py64.to_float x).
Proof.
  destruct x as [z|f]; cbn; [|exact I].
  destruct (Py64.is_infinite (Py64.nearest z 0)); exact I.
Qed.






(** A division whose divisor is an [int] other than 0. *)
Lemma guarded_truediv_int (x y : Z) :
  y <> 0 -> guarded (Py64.truediv (Py64.Int x) (Py64.Int y)).
Proof.
  intros Hy. cbn. destruct (Z.eqb_spec y 0) as [E|_]; [contradiction|].
  destruct (Py64.is_infinite _); exact I.
Qed.

(** A division by a [float] other than zero. *)
Lemma guarded_truediv_float (a : Py64.num) (f : Py64.float) :
  Py64.is_zero f = false -> guarded (Py64.truediv a (Py64.Float f)).
Proof.
  intros Hf. unfold Py64.truediv.
  assert (G : forall x : Py64.float,
    guarded (Py64.bind (Py64.to_float (Py64.Float f)) (fun y =>
      if Py64.is_zero y then Py64.Raise Py64.ZeroDivisionError
      else Py64.Ok (Py64.Float (SFdiv Py64.prec Py64.emax x y))))).
  { intros x. cbn [Py64.to_float Py64.bind]. rewrite Hf. exact I. }
  destruct a as [z|g].
  - apply guarded_bind; [apply guarded_to_float | intros x _; apply G].
  - apply (G g).
Qed.

Lemma gt_zero_float (f : Py64.float) :
  Py64.gt (Py64.Float f) (Py64.Int 0) = true -> Py64.is_zero f = false.
Proof. destruct f as [s|s| |s m e]; [discriminate | reflexivity ..]. Qed.

(** A quotient is a [float]. *)
Lemma truediv_float (a b r : Py64.num) :
  Py64.truediv a b = Py64.Ok r -> exists f, r = Py64.Float f.
Proof.
  destruct a as [x|f], b as [y|g]; cbn -[Py64.nearest].
  - destruct (y =? 0); [discriminate|].
    destruct (Py64.is_infinite _); [discriminate|]. intros H. injection H as <-. eauto.
  - destruct (Py64.is_infinite (Py64.nearest x 0)); cbn; [discriminate|].
    destruct (Py64.is_zero g); [discriminate|]. intros H. injection H as <-. eauto.
  - destruct (Py64.is_infinite (Py64.nearest y 0)); cbn -[Py64.nearest]; [discriminate|].
    destruct (Py64.is_zero _); [discriminate|]. intros H. injection H as <-. eauto.
  - destruct (Py64.is_zero g); [discriminate|]. intros H. injection H as <-. eauto.
Qed.

Lemma guarded_spec64_effective_duration (first last : Word.t) (audio : Py64.num) :
  guarded (spec64_effective_duration first last audio).
Proof.
  unfold spec64_effective_duration.
  destruct (_ >? 0); [|exact I]. now apply guarded_truediv_float.
Qed.

Lemma guarded_spec64_wpm (count : Z) (sec : Py64.num) : guarded (spec64_wpm count sec).
Proof.
  unfold spec64_wpm. destruct (Py64.gt sec (Py64.Int 0)).
  - apply guarded_bind; [now apply guarded_truediv_float|].
    intros minutes Hm. destruct (truediv_float _ _ _ Hm) as [f ->].
    destruct (Py64.gt (Py64.Float f) (Py64.Int 0)) eqn:G; [|exact I].
    apply guarded_truediv_float, gt_zero_float, G.
  - now apply guarded_truediv_int.
Qed.

Lemma guarded_wpm64 (words : list Word.t) (audio : Py64.num) :
  guarded (B64.wpm words audio).
Proof.
  rewrite wpm64_of_sec. apply guarded_bind; [|intros sec _; apply guarded_spec64_wpm].
  destruct words as [|w0 rest]; [exact I|].
  rewrite audio_duration_sec64_cons. apply guarded_spec64_effective_duration.
Qed.







(** What a returned report was computed from. *)
Lemma analyze_audio64_inv (lower : string -> string) (result : B64.Result.t)
    (report : B64.Report.t) :
  B64.analyze_audio lower result = Py64.Ok report ->
  let words := B64.Result.get (B64.Result.words result) [] in
  let audio := B64.Result.get (B64.Result.audio_duration result) (Py64.Int 0) in
  let sentences := B64.Result.get (B64.Result.sentiment_analysis_results result) [] in
  let scores := B64.Report.category_scores report in
  exists rate,
    B64.detect_pauses words
    = Py64.Ok (B64.Report.long_pauses report, B64.Report.detailed_pauses report)
    /\ B64.wpm words audio = Py64.Ok rate
    /\ B64.pacing rate
       = Py64.Ok (B64.Scores.pacing scores,
                  Feedback.pacing (B64.Report.category_feedback report))
    /\ B64.Report.wpm report = Py64.round1 rate
    /\ B64.Scores.fillers scores = filler_score lower (snd (detect_fillers lower words))
    /\ B64.Scores.pauses scores = B64.pause_score (B64.Report.detailed_pauses report)
    /\ B64.sentiment sentences
       = Py64.Ok (Stats.negative_sentences (B64.Report.sentiment_stats report),
                  B64.Scores.sentiment scores)
    /\ Stats.total_sentences (B64.Report.sentiment_stats report) = Py.len sentences
    /\ B64.overall_score (B64.Scores.pacing scores) (B64.Scores.fillers scores)
         (B64.Scores.pauses scores) (B64.Scores.sentiment scores)
       = Py64.Ok (B64.Report.score report).
Proof.
  unfold B64.analyze_audio. cbv zeta.
  destruct (detect_fillers lower _) as [filler_count detected_fillers] eqn:Ef.
  destruct (B64.detect_pauses _) as [[long_pauses detected_pauses]|e] eqn:Ep;
    [|discriminate].
  cbn [Py64.bind].
  destruct (B64.wpm _ _) as [rate|e] eqn:Ew; [|discriminate]. cbn [Py64.bind].
  destruct (B64.pacing rate) as [[wpm_score wpm_feedback]|e] eqn:Ea; [|discriminate].
  cbn [Py64.bind].
  destruct (B64.sentiment _) as [[negative_count score]|e] eqn:Es; [|discriminate].
  cbn [Py64.bind].
  destruct (B64.overall_score _ _ _ _) as [overall|e] eqn:Eo; [|discriminate].
  cbn [Py64.bind]. intros H. injection H as <-.
  exists rate.
  cbn [B64.Report.category_scores B64.Report.long_pauses B64.Report.detailed_pauses
       B64.Report.category_feedback B64.Report.wpm B64.Report.sentiment_stats
       B64.Report.score B64.Scores.pacing B64.Scores.fillers B64.Scores.pauses
       B64.Scores.sentiment Feedback.pacing Stats.negative_sentences
       Stats.total_sentences snd].
  repeat split; assumption.
Qed.

Lemma sentiment64_spec (sentences : list Sentence.t) :
  B64.sentiment sentences
  = Py64.bind (spec64_sentiment_score sentences)
      (fun score => Py64.Ok (Py.len (spec_negatives sentences), score)).
Proof.
  unfold B64.sentiment, spec64_sentiment_score.
  destruct sentences as [|s l]; [reflexivity|].
  replace (Py.len (s :: l) >? 0) with true
    by (symmetry; apply Z.gtb_gt; unfold Py.len; cbn [List.length]; lia).
  rewrite negative_count_spec.
  destruct (Py64.truediv _ _) as [neg_ratio|e]; [|reflexivity]. cbn [Py64.bind].
  destruct (Py64.gt neg_ratio _); [|reflexivity].
  destruct (Py64.mul _ _) as [percent|e]; [|reflexivity]. cbn [Py64.bind].
  destruct (Py64.int percent) as [whole|e]; reflexivity.
Qed.

(** C2, counterexample: nine words over 3320 ms with one gap of 1.6 s.  The
    rate over the buffered 4.32 s is 124.99999999999999 and the pacing
    score 94.99999999999999; with the scores 100, 85 and 100 the float sum
    rounds to 380.0, so the reported score is 95, while the floor of the
    mean of the four scores is 94. *)
Lemma score_above_floor_of_mean :
  exists report,
    B64.analyze_audio Py.ascii_lower
      (B64.transcript
         ([word "a" 0 100; word "a" 1700 1800] ++ repeat (word "a" 1800 1900) 6
            ++ [word "a" 3000 3320])%list
         (Py64.Int 0) [])
    = Py64.Ok report
    /\ B64.Report.category_scores report
       = {| B64.Scores.pacing := Py64.Float (S754_finite false 6685030696878079 (-46));
            B64.Scores.fillers := 100;
            B64.Scores.pauses := 85;
            B64.Scores.sentiment := 100 |}
    /\ B64.Report.score report = 95
    /\ Qfloor (exact_mean (B64.Report.category_scores report)) = 94.
Proof.
  eexists. split; [vm_compute; reflexivity|]. repeat split.
Qed.

(** C2 (as amended): the report's [score] is the integer part of the float
    that [(wpm_score + filler_score + pause_score + sentiment_score) / 4]
    evaluates to, each sum and the quotient rounded to the nearest double.
    Scores 100, 95, 85, 70 give 87. *)
Theorem score_is_truncated_float_mean :
  (forall (lower : string -> string) (result : B64.Result.t) (report : B64.Report.t),
     B64.analyze_audio lower result = Py64.Ok report ->
     Py64.bind (spec64_mean (B64.Report.category_scores report)) Py64.int
     = Py64.Ok (B64.Report.score report))
  /\ B64.overall_score (Py64.Int 100) 95 85 70 = Py64.Ok 87.
Proof.
  split; [|reflexivity].
  intros lower result report H.
  destruct (analyze_audio64_inv _ _ _ H) as (rate & _ & _ & _ & _ & _ & _ & _ & _ & Ho).
  rewrite <- Ho. unfold B64.overall_score, spec64_mean.
  destruct (Py64.add _ _) as [s1|e]; [|reflexivity]. cbn [Py64.bind].
  destruct (Py64.add _ _) as [s2|e]; [|reflexivity]. cbn [Py64.bind].
  destruct (Py64.add _ _) as [s3|e]; reflexivity.
Qed.

(** C6, counterexample: 29 sentences out of 100 labelled [NEGATIVE].  The
    quotient 0.29 times 100 is the double 28.999999999999996, whose integer
    part is 28: the score is 72, where the formula in exact arithmetic
    gives [100 - floor(29)], 71. *)
Lemma sentiment_score_rounds_down :
  exists report,
    B64.analyze_audio Py.ascii_lower
      (B64.transcript [] (Py64.Int 0) (repeat negative 29 ++ repeat positive 71)%list)
    = Py64.Ok report
    /\ B64.Scores.sentiment (B64.Report.category_scores report) = 72
    /\ spec_sentiment_score (repeat negative 29 ++ repeat positive 71)%list = 71.
Proof.
  eexists. split; [vm_compute; reflexivity|]. split; reflexivity.
Qed.

(** C6 (as amended): without sentences the sentiment score is 100;
    otherwise, with [neg_ratio] the double nearest to the share of
    sentences labelled [NEGATIVE], it is [max(0, 100 - int(neg_ratio * 100))],
    the product rounded to the nearest double, when [neg_ratio] exceeds the
    double [0.1], and 100 when it does not.  Three negative sentences out of
    ten give 70. *)
Theorem sentiment_score_float_formula :
  (forall sentences,
     B64.sentiment sentences
     = Py64.bind (spec64_sentiment_score sentences)
         (fun score => Py64.Ok (Py.len (spec_negatives sentences), score)))
  /\ (forall (lower : string -> string) (result : B64.Result.t) (report : B64.Report.t),
        B64.analyze_audio lower result = Py64.Ok report ->
        let sentences :=
          B64.Result.get (B64.Result.sentiment_analysis_results result) [] in
        spec64_sentiment_score sentences
        = Py64.Ok (B64.Scores.sentiment (B64.Report.category_scores report))
        /\ Stats.negative_sentences (B64.Report.sentiment_stats report)
           = Py.len (spec_negatives sentences)
        /\ Stats.total_sentences (B64.Report.sentiment_stats report)
           = Py.len sentences)
  /\ spec64_sentiment_score [] = Py64.Ok 100
  /\ B64.sentiment (repeat negative 3 ++ repeat positive 7) = Py64.Ok (3, 70).
Proof.
  split; [exact sentiment64_spec|]. split; [|split; reflexivity].
  intros lower result report H sentences.
  destruct (analyze_audio64_inv _ _ _ H) as (rate & _ & _ & _ & _ & _ & _ & Hs & Ht & _).
  fold sentences in Hs, Ht. rewrite sentiment64_spec in Hs.
  destruct (spec64_sentiment_score sentences) as [score|e]; [|discriminate].
  cbn [Py64.bind] in Hs. injection Hs as Hn Hscore.
  rewrite Hscore. repeat split; [symmetry; exact Hn | exact Ht].
Qed.

(** C7, counterexample: 697 words over a span of 245 s, 246 s with the
    buffer.  The exact rate is 170, within the band; the code divides
    twice in floating point and gets 170.00000000000003, so it judges the
    pace too fast.  And with a single word whose span is not positive and a
    reported duration of 5e-324 s, positive, the minutes round to 0.0 and
    the rate is 0, not the quotient. *)
Lemma wpm_is_rounded :
  (exists rate report,
     B64.wpm (spoken 697 245000) (Py64.Int 0) = Py64.Ok rate
     /\ (170 < Py64.val rate)%Q
     /\ (spec_wpm 697
           (spec_effective_duration (word "a" 0 0) (word "a" 0 245000) 0) == 170)%Q
     /\ B64.analyze_audio Py.ascii_lower
          (B64.transcript (spoken 697 245000) (Py64.Int 0) [])
        = Py64.Ok report
     /\ Feedback.pacing (B64.Report.category_feedback report)
        = "Your pace is too fast. Slow down to 130-170 WPM for the clearest speech.")
  /\ (Py64.gt (Py64.Float (S754_finite false 1 (-1074))) (Py64.Int 0) = true
      /\ B64.wpm [word "a" 5000 0] (Py64.Float (S754_finite false 1 (-1074)))
         = Py64.Ok (Py64.Int 0)).
Proof.
  split.
  - do 2 eexists. split; [vm_compute; reflexivity|]. split; [reflexivity|].
    split; [reflexivity|]. split; [vm_compute; reflexivity|]. reflexivity.
  - split; reflexivity.
Qed.

(** C7 (as amended): for a transcript that has words, the rate used for
    pacing is the word count over the minutes, the minutes being the
    effective duration over [60.0] and the effective duration the buffered
    span over [1000.0] when the span is positive and the reported audio
    duration otherwise, each quotient rounded to the nearest double; when
    the effective duration is not positive the divisor is one minute, and
    when the minutes round to zero the rate is 0.  No division by zero
    occurs.  The report carries that rate rounded to one decimal and the
    pacing score computed from it. *)
Theorem wpm_over_effective_duration_rounded :
  (forall (w0 : Word.t) (rest : list Word.t) (audio : Py64.num),
     B64.wpm (w0 :: rest) audio
     = Py64.bind (spec64_effective_duration w0 (last rest w0) audio)
         (spec64_wpm (Py.len (w0 :: rest))))
  /\ (forall words audio, guarded (B64.wpm words audio))
  /\ (forall (lower : string -> string) (result : B64.Result.t) (report : B64.Report.t),
        B64.analyze_audio lower result = Py64.Ok report ->
        exists rate,
          B64.wpm (B64.Result.get (B64.Result.words result) [])
            (B64.Result.get (B64.Result.audio_duration result) (Py64.Int 0))
          = Py64.Ok rate
          /\ B64.Report.wpm report = Py64.round1 rate
          /\ B64.pacing rate
             = Py64.Ok (B64.Scores.pacing (B64.Report.category_scores report),
                        Feedback.pacing (B64.Report.category_feedback report))).
Proof.
  split; [exact wpm64_spec|]. split; [exact guarded_wpm64|].
  intros lower result report H.
  destruct (analyze_audio64_inv _ _ _ H) as (rate & _ & Hw & Hp & Hr & _).
  exists rate. auto.
Qed.


